(** * rbcapp1 monitor: a shallow embedding of the health-aggregation core

    Embedded sources:
    - [src/monitor/service_checker.py]  (class [ServiceChecker])
    - [src/monitor/models.py]           (dataclass [ServiceStatus])
    - [src/monitor/app_monitor.py]      (class [ApplicationMonitor])

    Conventions.
    - A Python [str] is a Coq [string]; every character is read as a code
      point below 256.
    - Python code that may raise is a computation [M W A]: it takes the state
      of the outside world, returns either a value or the exception raised,
      and the world it leaves behind.  Every exception class that occurs
      derives from [Exception], so [except Exception] catches all of them.
    - Calls to [logger] are left out: they do not influence any value.
    - Parameters annotated [str], [List[str]] or [List[...]] are strings and
      lists here, so the [isinstance] tests on them hold; the constructor of
      [ServiceStatus] and the elements handed to
      [write_multiple_status_files] take arbitrary values ([pyval]). *)

From Stdlib Require Import ZArith Ascii String.
From stdpp Require Import base option list strings gmap sets.

(** ** Exceptions and computations *)

Inductive exn_class :=
  | ValueError | AttributeError | OSError | PermissionError
  | FileNotFoundError | TimeoutExpired | CalledProcessError | RuntimeError.

Global Instance exn_class_eq_dec : EqDecision exn_class.
Proof. solve_decision. Defined.

(** [str(e)] is the message. *)
Record exn := Exn { exn_cls : exn_class; exn_str : string }.

(** [isinstance(e, OSError)]: the class itself and its two subclasses. *)
Definition is_OSError (e : exn) : bool :=
  match exn_cls e with
  | OSError | PermissionError | FileNotFoundError => true
  | _ => false
  end.

Inductive result (A : Type) :=
  | Ok (a : A)
  | Raise (e : exn).
Arguments Ok {A} a.
Arguments Raise {A} e.

Definition M (W A : Type) : Type := W → result A * W.

Definition ret {W A} (a : A) : M W A := λ w, (Ok a, w).
Definition raise {W A} (e : exn) : M W A := λ w, (Raise e, w).
Definition bind {W A B} (m : M W A) (k : A → M W B) : M W B :=
  λ w, match m w with
       | (Ok a, w') => k a w'
       | (Raise e, w') => (Raise e, w')
       end.

(** [try: m  except Exception as e: h e] *)
Definition try_except {W A} (m : M W A) (h : exn → M W A) : M W A :=
  λ w, match m w with
       | (Ok a, w') => (Ok a, w')
       | (Raise e, w') => h e w'
       end.

Notation "'let*' x := m 'in' k" := (bind m (λ x, k))
  (at level 10, x name, m at level 100, k at level 200).

(** ** Python strings *)

Notation "c1 =c c2" := (bool_decide (c1 = c2 :> ascii)) (at level 70).

(** [str.isspace] on one character below 256. *)
Definition isspace (c : ascii) : bool :=
  let n := N_of_ascii c in
  (((9 <=? n) && (n <=? 13)) || ((28 <=? n) && (n <=? 32))
   || (n =? 133) || (n =? 160))%N.

Fixpoint lstrip (s : string) : string :=
  match s with
  | EmptyString => EmptyString
  | String c s' => if isspace c then lstrip s' else s
  end.

Fixpoint rstrip (s : string) : string :=
  match s with
  | EmptyString => EmptyString
  | String c s' =>
      match rstrip s' with
      | EmptyString => if isspace c then EmptyString else String c EmptyString
      | r => String c r
      end
  end.

(** [s.strip()] *)
Definition strip (s : string) : string := rstrip (lstrip s).

(** [all(c.isspace() for c in s)] *)
Fixpoint all_space (s : string) : bool :=
  match s with
  | EmptyString => true
  | String c s' => isspace c && all_space s'
  end.

(** [s.replace(c, r)] for a one-character pattern [c]. *)
Fixpoint str_replace (c : ascii) (r : string) (s : string) : string :=
  match s with
  | EmptyString => EmptyString
  | String a s' =>
      if decide (a = c) then r +:+ str_replace c r s'
      else String a (str_replace c r s')
  end.

(** [s[:n]] and [s[n:]] *)
Fixpoint str_take (n : nat) (s : string) : string :=
  match n, s with
  | S n', String c s' => String c (str_take n' s')
  | _, _ => EmptyString
  end.

Fixpoint str_drop (n : nat) (s : string) : string :=
  match n, s with
  | S n', String _ s' => str_drop n' s'
  | _, _ => s
  end.

(** ** Python dictionaries

    A [dict] keeps its keys in insertion order; assigning to a key that is
    present replaces the value in place. *)

Definition pydict (V : Type) : Type := list (string * V).

Fixpoint dict_get {V} (k : string) (d : pydict V) : option V :=
  match d with
  | [] => None
  | (k', v) :: d' => if decide (k' = k) then Some v else dict_get k d'
  end.

(** [d[k] = v] *)
Fixpoint dict_set {V} (k : string) (v : V) (d : pydict V) : pydict V :=
  match d with
  | [] => [(k, v)]
  | (k', v') :: d' =>
      if decide (k' = k) then (k', v) :: d' else (k', v') :: dict_set k v d'
  end.

Definition dict_keys {V} (d : pydict V) : list string := d.*1.

(** ** datetime (standard library)

    [datetime.utcnow()] yields a naive value: the seven fields below. *)

Record datetime := {
  year : N; month : N; day : N;
  hour : N; minute : N; second : N; microsecond : N
}.

Definition is_leap (y : N) : bool :=
  ((y mod 4 =? 0) && (negb (y mod 100 =? 0) || (y mod 400 =? 0)))%N.

Definition days_in_month (y m : N) : N :=
  match m with
  | 2 => if is_leap y then 29 else 28
  | 4 | 6 | 9 | 11 => 30
  | _ => 31
  end%N.

(** The range checks of the [datetime] constructor. *)
Definition valid_datetime (d : datetime) : bool :=
  ((1 <=? year d) && (year d <=? 9999) && (1 <=? month d) && (month d <=? 12)
   && (1 <=? day d) && (day d <=? days_in_month (year d) (month d))
   && (hour d <=? 23) && (minute d <=? 59) && (second d <=? 59)
   && (microsecond d <=? 999999))%N.

Definition digit_char (n : N) : ascii := ascii_of_N (48 + n).

Definition digit_val (c : ascii) : option N :=
  let n := N_of_ascii c in
  if ((48 <=? n) && (n <=? 57))%N then Some (n - 48)%N else None.

(** ["%0kd" % n] for [n < 10^k], which the fields of a [datetime] are. *)
Fixpoint pad_digits (k : nat) (n : N) : string :=
  match k with
  | 0 => EmptyString
  | S k' => String (digit_char ((n / 10 ^ N.of_nat k') mod 10)) (pad_digits k' n)
  end.

(** [datetime.isoformat()] of a naive value:
    [YYYY-MM-DDTHH:MM:SS], followed by [.ffffff] unless the microseconds
    are zero. *)
Definition isoformat (d : datetime) : string :=
  pad_digits 4 (year d) +:+ "-" +:+ pad_digits 2 (month d) +:+ "-"
  +:+ pad_digits 2 (day d) +:+ "T" +:+ pad_digits 2 (hour d) +:+ ":"
  +:+ pad_digits 2 (minute d) +:+ ":" +:+ pad_digits 2 (second d)
  +:+ (if (microsecond d =? 0)%N then ""
       else "." +:+ pad_digits 6 (microsecond d)).

(** [int(s)] on a string of decimal digits. *)
Fixpoint parse_digits (acc : N) (s : string) : option N :=
  match s with
  | EmptyString => Some acc
  | String c s' => d ← digit_val c; parse_digits (10 * acc + d) s'
  end.

Definition parse_int (s : string) : option N :=
  match s with
  | EmptyString => None
  | _ => parse_digits 0 s
  end.

(** Exactly [n] decimal digits at the head of [s]. *)
Definition parse_field (n : nat) (s : string) : option N :=
  if String.length (str_take n s) =? n then parse_int (str_take n s) else None.

(** [datetime.fromisoformat] belongs to the interpreter that runs the
    monitor, and what it accepts depends on the version ([python_requires]
    is [>=3.8]): from Python 3.11 on it also reads the basic format, week
    dates and fractions of any length.  The code is therefore embedded over
    a parser that is a parameter: on a [str] it gives the value read and its
    UTC offset, or [None] where the library raises [ValueError]. *)
Class IsoParser :=
  datetime_fromisoformat : string → option (datetime * option Z).

(** The parser of Python 3.8 to 3.10 accepts the grammar

    [YYYY-MM-DD[*HH[:MM[:SS[.fff[fff]]]][+HH:MM[:SS[.ffffff]]]]]

    where [*] is any single character.  The functions follow
    [_parse_isoformat_date], [_parse_hh_mm_ss_ff] and [_parse_isoformat_time]
    of the library's [datetime.py]. *)

Definition parse_isoformat_date (dtstr : string) : option (N * N * N) :=
  y ← parse_field 4 dtstr;
  match str_drop 4 dtstr with
  | String c1 r1 =>
      if c1 =c "-"%char then
        m ← parse_field 2 r1;
        match str_drop 2 r1 with
        | String c2 r2 =>
            if c2 =c "-"%char then
              d ← parse_field 2 r2;
              if String.length r2 =? 2 then Some (y, m, d) else None
            else None
        | EmptyString => None
        end
      else None
  | EmptyString => None
  end.

(** The loop over [HH], [MM], [SS]: at most [S n] components separated by
    colons; returns them with what follows the last one. *)
Fixpoint parse_comps (n : nat) (tstr : string) : option (list N * string) :=
  v ← parse_field 2 tstr;
  let rest := str_drop 2 tstr in
  match n, rest with
  | 0, _ => Some ([v], rest)
  | S _, EmptyString => Some ([v], EmptyString)
  | S n', String c rest' =>
      if c =c ":"%char then
        '(vs, r) ← parse_comps n' rest'; Some (v :: vs, r)
      else None
  end.

Definition parse_hh_mm_ss_ff (tstr : string) : option (N * N * N * N) :=
  '(comps, rest) ← parse_comps 2 tstr;
  us ← match rest with
       | EmptyString => Some 0%N
       | String c f =>
           if c =c "."%char then
             if String.length f =? 3 then (λ n, n * 1000)%N <$> parse_int f
             else if String.length f =? 6 then parse_int f
             else None
           else None
       end;
  Some (default 0%N (comps !! 0), default 0%N (comps !! 1),
        default 0%N (comps !! 2), us).

(** Splits at the first ['+'] or ['-']. *)
Fixpoint find_sign (s : string) : option (string * ascii * string) :=
  match s with
  | EmptyString => None
  | String c s' =>
      if (c =c "+"%char) || (c =c "-"%char) then Some (EmptyString, c, s')
      else '(l, sg, r) ← find_sign s'; Some (String c l, sg, r)
  end.

(** The offset of a [timezone], in microseconds east of UTC; the
    [timezone] constructor wants it strictly between minus and plus one
    day. *)
Definition tz_offset (sign : ascii) (c : N * N * N * N) : option Z :=
  let '(h, m, s, us) := c in
  let td := Z.of_N (((h * 60 + m) * 60 + s) * 1000000 + us) in
  let off := if sign =c "-"%char then (- td)%Z else td in
  if (Z.abs off <? 86400000000)%Z then Some off else None.

Definition parse_isoformat_time (tstr : string)
  : option (N * N * N * N * option Z) :=
  match find_sign tstr with
  | None => c ← parse_hh_mm_ss_ff tstr; Some (c, None)
  | Some (timestr, sign, tzstr) =>
      c ← parse_hh_mm_ss_ff timestr;
      let n := String.length tzstr in
      if (n =? 5) || (n =? 8) || (n =? 15) then
        tz ← parse_hh_mm_ss_ff tzstr;
        off ← tz_offset sign tz;
        Some (c, Some off)
      else None
  end.

(** The parsed value and its UTC offset, or [None] where the library
    raises [ValueError]. *)
Definition fromisoformat (date_string : string) : option (datetime * option Z) :=
  '(y, m, d) ← parse_isoformat_date (str_take 10 date_string);
  '(hh, mm, ss, us, tz) ←
     (if String.length date_string =? 10 then Some (0, 0, 0, 0, None)%N
      else parse_isoformat_time (str_drop 11 date_string));
  let dt := {| year := y; month := m; day := d;
               hour := hh; minute := mm; second := ss; microsecond := us |} in
  if valid_datetime dt then Some (dt, tz) else None.

(** Where no other parser is at hand, the one of Python 3.8 to 3.10 is
    meant.  What it accepts of the strings used with it below (the stamps
    [isoformat] prints, with a UTC offset, and calendar dates) the later
    versions accept too. *)
Global Instance python_3_8 : IsoParser := fromisoformat.

(** ** models.py *)

(** A constructed [ServiceStatus]: after [_validate] the four fields are
    strings. *)
Record ServiceStatus := {
  service_name : string;
  service_status : string;
  host_name : string;
  timestamp : string
}.

(** The Python values that reach the code below: the arguments handed to the
    [ServiceStatus] constructor and the elements of the list handed to
    [write_multiple_status_files].  [PyObject] is an instance of any other
    class, given by its attributes. *)
Inductive pyval :=
  | PyNone
  | PyInt (n : Z)
  | PyStr (s : string)
  | PyServiceStatus (st : ServiceStatus)
  | PyObject (attrs : list (string * pyval)).

(** [bool(v)] *)
Definition truthy (v : pyval) : bool :=
  match v with
  | PyNone => false
  | PyInt n => negb (n =? 0)%Z
  | PyStr s => negb (bool_decide (s = ""))
  | PyServiceStatus _ | PyObject _ => true
  end.

(** [isinstance(v, str)] *)
Definition isinstance_str (v : pyval) : bool :=
  match v with PyStr _ => true | _ => false end.

(** [v in l] for a list [l] of strings. *)
Definition py_in (v : pyval) (l : list string) : bool :=
  match v with PyStr s => bool_decide (s ∈ l) | _ => false end.

Definition str_of (v : pyval) : string :=
  match v with PyStr s => s | _ => "" end.

Definition _validate {parser : IsoParser}
    (service_name service_status host_name timestamp : pyval)
  : result unit :=
  if negb (truthy service_name) || negb (isinstance_str service_name) then
    Raise (Exn ValueError "service_name must be a non-empty string")
  else if negb (py_in service_status ["UP"; "DOWN"]) then
    Raise (Exn ValueError "service_status must be either 'UP' or 'DOWN'")
  else if negb (truthy host_name) || negb (isinstance_str host_name) then
    Raise (Exn ValueError "host_name must be a non-empty string")
  else if negb (truthy timestamp) || negb (isinstance_str timestamp) then
    Raise (Exn ValueError "timestamp must be a non-empty string")
  else
    match datetime_fromisoformat
            (str_replace "Z" "+00:00" (str_of timestamp)) with
    | Some _ => Ok tt
    | None => Raise (Exn ValueError "timestamp must be in ISO 8601 format")
    end.

(** [ServiceStatus(service_name=..., service_status=..., host_name=...,
    timestamp=...)]: the generated [__init__] stores the fields and
    [__post_init__] runs [_validate]; when that raises, no object is
    returned. *)
Definition ServiceStatus_init {parser : IsoParser}
    (service_name service_status host_name timestamp : pyval)
  : result ServiceStatus :=
  match _validate service_name service_status host_name timestamp with
  | Raise e => Raise e
  | Ok _ =>
      Ok {| service_name := str_of service_name;
            service_status := str_of service_status;
            host_name := str_of host_name;
            timestamp := str_of timestamp |}
  end.

(** [asdict(self)]: the fields in declaration order. *)
Definition to_dict (self : ServiceStatus) : pydict string :=
  [("service_name", service_name self);
   ("service_status", service_status self);
   ("host_name", host_name self);
   ("timestamp", timestamp self)].

(** [getattr(v, "service_name")]: a value, or [AttributeError]. *)
Definition getattr_service_name (v : pyval) : result pyval :=
  match v with
  | PyServiceStatus st => Ok (PyStr (service_name st))
  | PyObject attrs =>
      match dict_get "service_name" attrs with
      | Some a => Ok a
      | None => Raise (Exn AttributeError "object has no attribute 'service_name'")
      end
  | _ => Raise (Exn AttributeError "object has no attribute 'service_name'")
  end.

(** ** json (standard library)

    [json.dump(obj, f, indent=2, ensure_ascii=False)] for a dictionary whose
    values are strings, and [json.loads] on documents of that kind: one
    object whose members are strings.  Any other document is outside this
    model and reads as [None]. *)

Definition dquote : ascii := "034".
Definition backslash : ascii := "092".
Definition newline : ascii := "010".

Definition hex_char (n : N) : ascii :=
  if (n <? 10)%N then ascii_of_N (48 + n) else ascii_of_N (87 + n).

Definition hex_val (c : ascii) : option N :=
  let n := N_of_ascii c in
  if ((48 <=? n) && (n <=? 57))%N then Some (n - 48)%N
  else if ((97 <=? n) && (n <=? 102))%N then Some (n - 87)%N
  else if ((65 <=? n) && (n <=? 70))%N then Some (n - 55)%N
  else None.

(** [ESCAPE_DCT]: the replacement of one character. *)
Definition escape_char (c : ascii) : string :=
  if c =c backslash then String backslash (String backslash "")
  else if c =c dquote then String backslash (String dquote "")
  else if c =c "008"%char then String backslash "b"
  else if c =c "012"%char then String backslash "f"
  else if c =c "010"%char then String backslash "n"
  else if c =c "013"%char then String backslash "r"
  else if c =c "009"%char then String backslash "t"
  else if (N_of_ascii c <? 32)%N then
    String backslash
      (String "u" (String "0" (String "0"
        (String (hex_char (N_of_ascii c / 16)) (String (hex_char (N_of_ascii c mod 16)) "")))))
  else String c "".

Fixpoint escape (s : string) : string :=
  match s with
  | EmptyString => EmptyString
  | String c s' => escape_char c +:+ escape s'
  end.

Definition py_encode_basestring (s : string) : string :=
  String dquote (escape s +:+ String dquote "").

Fixpoint encode_items (items : list (string * string)) : string :=
  match items with
  | [] => EmptyString
  | [(k, v)] => py_encode_basestring k +:+ ": " +:+ py_encode_basestring v
  | (k, v) :: rest =>
      py_encode_basestring k +:+ ": " +:+ py_encode_basestring v
      +:+ String "," (String newline "  ") +:+ encode_items rest
  end.

Definition json_dumps (dct : pydict string) : string :=
  match dct with
  | [] => "{}"
  | _ => String "{" (String newline "  ") +:+ encode_items dct
         +:+ String newline "}"
  end.

Definition is_json_ws (c : ascii) : bool :=
  (c =c " "%char) || (c =c "009"%char) || (c =c "010"%char) || (c =c "013"%char).

Fixpoint skip_ws (s : string) : string :=
  match s with
  | String c s' => if is_json_ws c then skip_ws s' else s
  | EmptyString => EmptyString
  end.

(** [BACKSLASH]: the one-letter escapes. *)
Definition unescape_char (c : ascii) : option ascii :=
  if c =c dquote then Some dquote
  else if c =c backslash then Some backslash
  else if c =c "/"%char then Some "/"%char
  else if c =c "b"%char then Some "008"%char
  else if c =c "f"%char then Some "012"%char
  else if c =c "n"%char then Some "010"%char
  else if c =c "r"%char then Some "013"%char
  else if c =c "t"%char then Some "009"%char
  else None.

(** [scanstring] in strict mode, started just after the opening quote:
    the decoded string and the text after the closing quote.  An escape
    [\uXXXX] that names a code point of 256 or more is outside this model. *)
Fixpoint scanstring (s : string) : option (string * string) :=
  match s with
  | EmptyString => None
  | String c s' =>
      if c =c dquote then Some (EmptyString, s')
      else if c =c backslash then
        match s' with
        | EmptyString => None
        | String e s'' =>
            if e =c "u"%char then
              match s'' with
              | String h1 (String h2 (String h3 (String h4 r))) =>
                  d1 ← hex_val h1; d2 ← hex_val h2;
                  d3 ← hex_val h3; d4 ← hex_val h4;
                  let uni := (((d1 * 16 + d2) * 16 + d3) * 16 + d4)%N in
                  if (uni <? 256)%N then
                    '(t, rest) ← scanstring r; Some (String (ascii_of_N uni) t, rest)
                  else None
              | _ => None
              end
            else
              ch ← unescape_char e;
              '(t, rest) ← scanstring s''; Some (String ch t, rest)
        end
      else if (N_of_ascii c <? 32)%N then None
      else '(t, rest) ← scanstring s'; Some (String c t, rest)
  end.

(** The loop of [JSONObject], started just after the opening quote of a key;
    [fuel] bounds the number of members. *)
Fixpoint parse_members (fuel : nat) (s : string) (pairs : list (string * string))
  : option (list (string * string) * string) :=
  match fuel with
  | 0 => None
  | S fuel' =>
      '(key, r) ← scanstring s;
      match skip_ws r with
      | String c r1 =>
          if c =c ":"%char then
            match skip_ws r1 with
            | String q r2 =>
                if q =c dquote then
                  '(value, r3) ← scanstring r2;
                  let pairs := pairs ++ [(key, value)] in
                  match skip_ws r3 with
                  | String n r4 =>
                      if n =c "}"%char then Some (pairs, r4)
                      else if n =c ","%char then
                        match skip_ws r4 with
                        | String q' r5 =>
                            if q' =c dquote then parse_members fuel' r5 pairs
                            else None
                        | EmptyString => None
                        end
                      else None
                  | EmptyString => None
                  end
                else None
            | EmptyString => None
            end
          else None
      | EmptyString => None
      end
  end.

(** [dict(pairs)] *)
Definition dict_of_pairs (pairs : list (string * string)) : pydict string :=
  foldl (λ d kv, dict_set kv.1 kv.2 d) [] pairs.

Definition json_loads (s : string) : option (pydict string) :=
  match skip_ws s with
  | String c r =>
      if c =c "{"%char then
        match skip_ws r with
        | String q r' =>
            if q =c "}"%char then
              if bool_decide (skip_ws r' = "") then Some [] else None
            else if q =c dquote then
              '(pairs, rest) ← parse_members (String.length r') r' [];
              if bool_decide (skip_ws rest = "") then Some (dict_of_pairs pairs)
              else None
            else None
        | EmptyString => None
        end
      else None
  | EmptyString => None
  end.

(** ** The outside world *)

(** What [self.service_checker] has to offer; [ApplicationMonitor] takes any
    object with these three methods (the tests hand it mocks). *)
Class Checker (W : Type) := {
  sc_check_service_status : string → M W string;
  sc_get_hostname : M W string;
  sc_get_current_timestamp : M W string
}.

(** What [pathlib] and [open] have to offer.  [path_join dir name] is
    [str(Path(dir) / name)]; [path_mkdir dir] is
    [Path(dir).mkdir(parents=True, exist_ok=True)]; [write_text path text]
    opens [path] for writing as UTF-8, writes [text] and closes the file;
    [read_text] is what a later reader of the file finds. *)
Class FileSystem (W : Type) := {
  path_join : string → string → string;
  path_mkdir : string → M W unit;
  write_text : string → string → M W unit;
  read_text : string → W → option string
}.

(** A written file holds what was written. *)
Definition read_after_write (W : Type) `{!FileSystem W} : Prop :=
  ∀ path text w w', write_text path text w = (Ok tt, w') →
                    read_text path w' = Some text.

(** The value [subprocess.run] returns with [capture_output=True, text=True]. *)
Record CompletedProcess := { returncode : Z; stdout : string }.

(** A machine: what [systemctl is-active <name>] does when started at a given
    instant (it completes within the 10 second limit, or [subprocess.run]
    raises), what the UTC clock shows, which file operations fail, the files
    on disk, and a logical time that advances with every interaction. *)
Record OS := {
  os_run : nat → string → result CompletedProcess;
  os_utcnow : nat → datetime;
  os_fault : nat → string → option exn;
  os_files : pydict string;
  os_tick : nat
}.

Definition os_step (w : OS) : OS :=
  {| os_run := os_run w; os_utcnow := os_utcnow w; os_fault := os_fault w;
     os_files := os_files w; os_tick := S (os_tick w) |}.

Definition os_store (path text : string) (w : OS) : OS :=
  {| os_run := os_run w; os_utcnow := os_utcnow w; os_fault := os_fault w;
     os_files := dict_set path text (os_files w); os_tick := os_tick w |}.

(** [subprocess.run(['systemctl', 'is-active', service_name],
    capture_output=True, text=True, timeout=10)] *)
Definition subprocess_run (service_name : string) : M OS CompletedProcess :=
  λ w, (os_run w (os_tick w) service_name, os_step w).

(** [datetime.utcnow()] *)
Definition utcnow : M OS datetime :=
  λ w, (Ok (os_utcnow w (os_tick w)), os_step w).

Definition os_file_op (path : string) (store : OS → OS) : M OS unit :=
  λ w, match os_fault w (os_tick w) path with
       | Some e => (Raise e, os_step w)
       | None => (Ok tt, os_step (store w))
       end.

Global Instance os_file_system : FileSystem OS := {
  path_join dir name := dir +:+ "/" +:+ name;
  path_mkdir dir := os_file_op dir id;
  write_text path text := os_file_op path (os_store path text);
  read_text path w := dict_get path (os_files w)
}.

(** ** service_checker.py *)

Module ServiceChecker.

(** The object: [self.hostname]. *)
Record t := { hostname : string }.

(** [gethostname] is the outcome of [socket.gethostname()]. *)
Definition _get_hostname (gethostname : result string) : string :=
  match gethostname with
  | Ok name => name
  | Raise _ => "unknown-host"
  end.

Definition __init__ (gethostname : result string) : t :=
  {| hostname := _get_hostname gethostname |}.

Definition check_service_status (service_name : string) : M OS string :=
  if bool_decide (service_name = "") then
    raise (Exn ValueError "service_name must be a non-empty string")
  else
    try_except
      (let* result := subprocess_run service_name in
       if (returncode result =? 0)%Z
          && bool_decide (strip (stdout result) = "active")
       then ret "UP"
       else ret "DOWN")
      (λ _, ret "DOWN").

Definition get_hostname (self : t) : M OS string := ret (hostname self).

Definition get_current_timestamp : M OS string :=
  let* now := utcnow in ret (isoformat now +:+ "Z").

End ServiceChecker.

Global Instance service_checker (self : ServiceChecker.t) : Checker OS := {
  sc_check_service_status := ServiceChecker.check_service_status;
  sc_get_hostname := ServiceChecker.get_hostname self;
  sc_get_current_timestamp := ServiceChecker.get_current_timestamp
}.

(** ** app_monitor.py *)

Module Report.
(** The dictionary [get_full_monitoring_report] returns; the key ["error"]
    is present on the fallback path only. *)
Record t := {
  service_statuses : pydict string;
  app_status : string;
  service_objects : list ServiceStatus;
  app_object : ServiceStatus;
  timestamp : string;
  error : option string
}.
End Report.

Module ApplicationMonitor.

Definition REQUIRED_SERVICES : list string := ["httpd"; "rabbitmq"; "postgresql"].

(** The loop of [determine_app_status] over the required services. *)
Fixpoint required_up (required : list string) (service_statuses : pydict string)
  : string :=
  match required with
  | [] => "UP"
  | service :: rest =>
      match dict_get service service_statuses with
      | None => "DOWN"
      | Some status =>
          if negb (bool_decide (status = "UP")) then "DOWN"
          else required_up rest service_statuses
      end
  end.

Definition determine_app_status (service_statuses : pydict string) : string :=
  match service_statuses with
  | [] => "DOWN"
  | _ => required_up REQUIRED_SERVICES service_statuses
  end.

(** [generate_json_filename] once the timestamp is known. *)
Definition json_filename (service_name timestamp : string) : string :=
  let safe_timestamp :=
    str_replace "." "-" (str_replace ":" "-" timestamp) in
  service_name +:+ "-status-" +:+ safe_timestamp +:+ ".json".

(** The loop of [create_service_status_objects]: a record whose construction
    raises is logged and left out. *)
Fixpoint status_objects_loop {parser : IsoParser}
    (items : list (string * string))
    (hostname timestamp : string) (status_objects : list ServiceStatus)
  : list ServiceStatus :=
  match items with
  | [] => status_objects
  | (service_name, status) :: rest =>
      match ServiceStatus_init (PyStr service_name) (PyStr status)
              (PyStr hostname) (PyStr timestamp) with
      | Ok service_status =>
          status_objects_loop rest hostname timestamp
            (status_objects ++ [service_status])
      | Raise _ => status_objects_loop rest hostname timestamp status_objects
      end
  end.

Section methods.
Context {parser : IsoParser}.
Context {W : Type} {checker : Checker W} {fs : FileSystem W}.

(** The loop of [check_service_statuses]. *)
Fixpoint check_loop (services : list string) (statuses : pydict string)
  : M W (pydict string) :=
  match services with
  | [] => ret statuses
  | service :: rest =>
      let* status :=
        try_except (sc_check_service_status service) (λ _, ret "DOWN") in
      check_loop rest (dict_set service status statuses)
  end.

Definition check_service_statuses (services : option (list string))
  : M W (pydict string) :=
  let services := default REQUIRED_SERVICES services in
  match services with
  | [] => raise (Exn ValueError "services list cannot be empty")
  | _ => check_loop services []
  end.

Definition get_rbcapp1_status : M W string :=
  try_except
    (let* service_statuses := check_service_statuses None in
     ret (determine_app_status service_statuses))
    (λ _, ret "DOWN").

Definition create_service_status_objects (service_statuses : pydict string)
  : M W (list ServiceStatus) :=
  let* hostname := sc_get_hostname in
  let* timestamp := sc_get_current_timestamp in
  ret (status_objects_loop service_statuses hostname timestamp []).

Definition create_rbcapp1_status_object (app_status : string)
  : M W ServiceStatus :=
  let* hostname := sc_get_hostname in
  let* timestamp := sc_get_current_timestamp in
  λ w, (ServiceStatus_init (PyStr "rbcapp1") (PyStr app_status)
          (PyStr hostname) (PyStr timestamp), w).

Definition get_full_monitoring_report : M W Report.t :=
  try_except
    (let* service_statuses := check_service_statuses None in
     let app_status := determine_app_status service_statuses in
     let* service_objects := create_service_status_objects service_statuses in
     let* app_object := create_rbcapp1_status_object app_status in
     let* timestamp := sc_get_current_timestamp in
     ret {| Report.service_statuses := service_statuses;
            Report.app_status := app_status;
            Report.service_objects := service_objects;
            Report.app_object := app_object;
            Report.timestamp := timestamp;
            Report.error := None |})
    (λ e,
     let* app_object := create_rbcapp1_status_object "DOWN" in
     let* timestamp := sc_get_current_timestamp in
     ret {| Report.service_statuses := [];
            Report.app_status := "DOWN";
            Report.service_objects := [];
            Report.app_object := app_object;
            Report.timestamp := timestamp;
            Report.error := Some (exn_str e) |}).

Definition generate_json_filename (service_name : string)
    (timestamp : option string) : M W string :=
  if bool_decide (service_name = "") then
    raise (Exn ValueError "service_name must be a non-empty string")
  else
    let* timestamp :=
      match timestamp with
      | None => sc_get_current_timestamp
      | Some t => ret t
      end in
    ret (json_filename service_name timestamp).

Definition write_status_file (service_status : pyval) (output_dir : string)
  : M W string :=
  match service_status with
  | PyServiceStatus st =>
      try_except
        (let* _ := path_mkdir output_dir in
         let* filename :=
           generate_json_filename (service_name st) (Some (timestamp st)) in
         let file_path := path_join output_dir filename in
         let* _ := write_text file_path (json_dumps (to_dict st)) in
         ret file_path)
        (λ e,
         if is_OSError e then
           raise (Exn OSError ("Cannot write status file: " +:+ exn_str e))
         else raise e)
  | _ => raise (Exn ValueError "service_status must be a ServiceStatus instance")
  end.

(** The loop of [write_multiple_status_files].  The handler formats
    [service_status.service_name] into its message before it logs, so it
    reads that attribute; the list [errors] only feeds a log line and is
    left out. *)
Fixpoint write_loop (service_statuses : list pyval) (output_dir : string)
    (written_files : list string) : M W (list string) :=
  match service_statuses with
  | [] => ret written_files
  | service_status :: rest =>
      let* written_files :=
        try_except
          (let* file_path := write_status_file service_status output_dir in
           ret (written_files ++ [file_path]))
          (λ e,
           let* _ := (λ w, (getattr_service_name service_status, w)) in
           ret written_files) in
      write_loop rest output_dir written_files
  end.

Definition write_multiple_status_files (service_statuses : list pyval)
    (output_dir : string) : M W (list string) :=
  write_loop service_statuses output_dir [].

End methods.
End ApplicationMonitor.

(** ** models.py: serialisation *)

(** [py_encode_basestring_ascii], the encoder [json.dumps] uses by default
    ([ensure_ascii=True]): besides the characters [ESCAPE_DCT] lists, every
    character outside [' '..'~'] is written as [\uXXXX]. *)
Definition escape_char_ascii (c : ascii) : string :=
  if (126 <? N_of_ascii c)%N then
    String backslash
      (String "u" (String "0" (String "0"
        (String (hex_char (N_of_ascii c / 16)) (String (hex_char (N_of_ascii c mod 16)) "")))))
  else escape_char c.

Fixpoint escape_ascii (s : string) : string :=
  match s with
  | EmptyString => EmptyString
  | String c s' => escape_char_ascii c +:+ escape_ascii s'
  end.

Definition py_encode_basestring_ascii (s : string) : string :=
  String dquote (escape_ascii s +:+ String dquote "").

(** [_iterencode_dict] with [indent=2], for a given string encoder. *)
Fixpoint encode_items_with (encoder : string → string)
    (items : list (string * string)) : string :=
  match items with
  | [] => EmptyString
  | [(k, v)] => encoder k +:+ ": " +:+ encoder v
  | (k, v) :: rest =>
      encoder k +:+ ": " +:+ encoder v
      +:+ String "," (String newline "  ") +:+ encode_items_with encoder rest
  end.

Definition json_dumps_with (encoder : string → string) (dct : pydict string)
  : string :=
  match dct with
  | [] => "{}"
  | _ => String "{" (String newline "  ") +:+ encode_items_with encoder dct
         +:+ String newline "}"
  end.

(** [json.dumps(self.to_dict(), indent=2)] *)
Definition to_json (self : ServiceStatus) : string :=
  json_dumps_with py_encode_basestring_ascii (to_dict self).

(** The outcome of a call with keyword arguments: [TypeError] when the
    keywords do not fit the parameters, the outcome of the body otherwise. *)
Inductive call_result (A : Type) :=
  | TypeError (msg : string)
  | Called (r : result A).
Arguments TypeError {A} msg.
Arguments Called {A} r.

Definition FIELDS : list string :=
  ["service_name"; "service_status"; "host_name"; "timestamp"].

(** [cls] called with the entries of [data] as keyword arguments. *)
Definition from_dict {parser : IsoParser} (data : pydict pyval)
  : call_result ServiceStatus :=
  if bool_decide (Forall (λ k, k ∈ FIELDS) (dict_keys data)) then
    match dict_get "service_name" data, dict_get "service_status" data,
          dict_get "host_name" data, dict_get "timestamp" data with
    | Some n, Some s, Some h, Some t => Called (ServiceStatus_init n s h t)
    | _, _, _, _ => TypeError "missing required positional argument"
    end
  else TypeError "got an unexpected keyword argument".

(** [cls.from_dict(json.loads(json_str))]; [None] where [json.loads] raises
    or the document is outside the model of [json_loads]. *)
Definition from_json {parser : IsoParser} (json_str : string)
  : option (call_result ServiceStatus) :=
  data ← json_loads json_str;
  Some (from_dict (prod_map id PyStr <$> data)).

(** ** main.py *)

Module Main.

(** The dictionary [monitor_services] returns. *)
Record services_report := {
  services_monitored : list string;
  service_statuses : pydict string;
  status_objects : list ServiceStatus;
  written_files : list string;
  timestamp : string;
  hostname : string
}.

Section functions.
Context {parser : IsoParser} {fs : FileSystem OS}.

(** [gethostname] is the outcome of [socket.gethostname()] when
    [ServiceChecker()] is constructed; [checker] is that object, around
    which the [ApplicationMonitor] is built. *)
Definition monitor_services (gethostname : result string)
    (services : list string) (output_dir : string) (write_files : bool)
  : M OS services_report :=
  try_except
    (let checker := ServiceChecker.__init__ gethostname in
     let* service_statuses :=
       ApplicationMonitor.check_service_statuses
         (checker := service_checker checker) (Some services) in
     let* status_objects :=
       ApplicationMonitor.create_service_status_objects
         (checker := service_checker checker) service_statuses in
     let* written_files :=
       match write_files, status_objects with
       | true, _ :: _ =>
           ApplicationMonitor.write_multiple_status_files
             (checker := service_checker checker)
             (PyServiceStatus <$> status_objects) output_dir
       | _, _ => ret []
       end in
     let* timestamp := ServiceChecker.get_current_timestamp in
     let* hostname := ServiceChecker.get_hostname checker in
     ret {| services_monitored := services;
            service_statuses := service_statuses;
            status_objects := status_objects;
            written_files := written_files;
            timestamp := timestamp;
            hostname := hostname |})
    (λ e, raise e).

(** The report of [get_full_monitoring_report] with the key
    ["written_files"] added. *)
Definition monitor_rbcapp1 (gethostname : result string)
    (output_dir : string) (write_files : bool)
  : M OS (Report.t * list string) :=
  try_except
    (let checker := ServiceChecker.__init__ gethostname in
     let* report :=
       ApplicationMonitor.get_full_monitoring_report
         (checker := service_checker checker) in
     let* written_files :=
       if write_files then
         let* service_files :=
           match Report.service_objects report with
           | _ :: _ =>
               ApplicationMonitor.write_multiple_status_files
                 (checker := service_checker checker)
                 (PyServiceStatus <$> Report.service_objects report) output_dir
           | [] => ret []
           end in
         let* app_file :=
           ApplicationMonitor.write_status_file
             (checker := service_checker checker)
             (PyServiceStatus (Report.app_object report)) output_dir in
         ret (service_files ++ [app_file])
       else ret [] in
     ret (report, written_files))
    (λ e, raise e).

End functions.
End Main.

(** ** Vocabulary of the statements *)

(** The date part [YYYY-MM-DD]. *)
Definition iso_date (y m d : N) : string :=
  pad_digits 4 y +:+ "-" +:+ pad_digits 2 m +:+ "-" +:+ pad_digits 2 d.

(** The time part [HH:MM:SS]. *)
Definition iso_time (h m s : N) : string :=
  pad_digits 2 h +:+ ":" +:+ pad_digits 2 m +:+ ":" +:+ pad_digits 2 s.

(** The fraction [.ffffff], absent when the microseconds are zero. *)
Definition iso_fraction (us : N) : string :=
  if (us =? 0)%N then "" else "." +:+ pad_digits 6 us.

(** The timestamps the specification calls valid: a date, one separator
    character and a time of day, which may end in "Z" or in a UTC offset. *)
Definition full_date_time (t : string) : Prop :=
  ∃ date sep rest,
    t = date +:+ String sep rest
    ∧ is_Some (parse_isoformat_date date)
    ∧ is_Some (parse_isoformat_time (str_replace "Z" "+00:00" rest)).

(** Midnight of a calendar day. *)
Definition midnight (y m d : N) : datetime :=
  {| year := y; month := m; day := d;
     hour := 0; minute := 0; second := 0; microsecond := 0 |}.

(** What [get_current_timestamp] returns at logical time [t] of machine [w]. *)
Definition stamp (w : OS) (t : nat) : string :=
  isoformat (os_utcnow w t) +:+ "Z".

(** The record made of one entry of the status map, a host and a timestamp. *)
Definition entry_record (host ts : string) (kv : string * string)
  : ServiceStatus :=
  {| service_name := kv.1; service_status := kv.2;
     host_name := host; timestamp := ts |}.

Section probes.
Context {W : Type} {checker : Checker W}.

(** What one probe of [name] in world [w] amounts to: its answer, or "DOWN"
    when it raises. *)
Definition probe_outcome (name : string) (w : W) : string :=
  match (sc_check_service_status name w).1 with
  | Ok status => status
  | Raise _ => "DOWN"
  end.

(** The world after probing [names] one after the other. *)
Fixpoint world_after (names : list string) (w : W) : W :=
  match names with
  | [] => w
  | name :: rest => world_after rest (sc_check_service_status name w).2
  end.

End probes.

Section batches.
Context {W : Type} {checker : Checker W} {fs : FileSystem W}.

(** [batch_run dir records w paths w']: writing [records] one after the
    other, each in the world its predecessors left, takes [w] to [w'], and
    [paths] are the paths of the writes that succeeded, in order. *)
Inductive batch_run (output_dir : string)
  : list ServiceStatus → W → list string → W → Prop :=
  | batch_done w : batch_run output_dir [] w [] w
  | batch_written record records w path w1 paths w2 :
      ApplicationMonitor.write_status_file (PyServiceStatus record) output_dir w
      = (Ok path, w1) →
      batch_run output_dir records w1 paths w2 →
      batch_run output_dir (record :: records) w (path :: paths) w2
  | batch_failed record records w e w1 paths w2 :
      ApplicationMonitor.write_status_file (PyServiceStatus record) output_dir w
      = (Raise e, w1) →
      batch_run output_dir records w1 paths w2 →
      batch_run output_dir (record :: records) w paths w2.

End batches.

(** Three records taken at 10:30. *)
Definition example_record (name status : string) : ServiceStatus :=
  {| service_name := name; service_status := status; host_name := "host-1";
     timestamp := "2024-01-15T10:30:00Z" |}.

Definition example_records : list ServiceStatus :=
  [example_record "httpd" "UP"; example_record "rabbitmq" "DOWN";
   example_record "postgresql" "UP"].

(** A machine for the examples: [rabbitmq] is inactive, the other units are
    active; the clock shows 2024-01-15 10:30:00 and one more microsecond at
    every reading (within that second); writing to the path [denied]
    fails. *)
Definition example_os (denied : string) : OS := {|
  os_run := λ _ name,
    if bool_decide (name = "rabbitmq")
    then Ok {| returncode := 3; stdout := "inactive" +:+ String newline "" |}
    else Ok {| returncode := 0; stdout := "active" +:+ String newline "" |};
  os_utcnow := λ t,
    {| year := 2024; month := 1; day := 15;
       hour := 10; minute := 30; second := 0;
       microsecond := (N.of_nat t mod 1000000)%N |};
  os_fault := λ _ path,
    if bool_decide (path = denied)
    then Some (Exn PermissionError "[Errno 13] Permission denied")
    else None;
  os_files := [];
  os_tick := 0
|}.

(** An entry of the status map from which a record can be built. *)
Definition entry_valid (kv : string * string) : Prop :=
  kv.1 ≠ "" ∧ (kv.2 = "UP" ∨ kv.2 = "DOWN").

Global Instance entry_valid_dec kv : Decision (entry_valid kv).
Proof. unfold entry_valid. apply _. Defined.

(** A host name and a timestamp with which a record can be built. *)
Definition stamp_valid {parser : IsoParser} (host ts : string) : Prop :=
  host ≠ "" ∧ ts ≠ ""
  ∧ is_Some (datetime_fromisoformat (str_replace "Z" "+00:00" ts)).

Global Instance stamp_valid_dec {parser : IsoParser} host ts :
  Decision (stamp_valid host ts).
Proof. unfold stamp_valid. apply _. Defined.

(** [c in s] for a character. *)
Fixpoint str_contains (c : ascii) (s : string) : bool :=
  match s with
  | EmptyString => false
  | String a s' => (a =c c) || str_contains c s'
  end.

(** * Properties *)

Import ApplicationMonitor.

(** ** Computations *)

Lemma bind_ok {W A B} (m : M W A) (k : A → M W B) w a w' :
  m w = (Ok a, w') → bind m k w = k a w'.
Proof. unfold bind. by intros ->. Qed.

Lemma bind_raise {W A B} (m : M W A) (k : A → M W B) w e w' :
  m w = (Raise e, w') → bind m k w = (Raise e, w').
Proof. unfold bind. by intros ->. Qed.

(** ** Dictionaries *)

Lemma dict_get_set {V} k k' (v : V) d :
  dict_get k' (dict_set k v d) = if decide (k = k') then Some v else dict_get k' d.
Proof.
  induction d as [|[k0 v0] d IH]; simpl.
  - by destruct (decide (k = k')).
  - destruct (decide (k0 = k)) as [->|Hne]; simpl.
    + by destruct (decide (k = k')).
    + destruct (decide (k0 = k')) as [->|?]; [|done].
      by destruct (decide (k = k')); [congruence|].
Qed.

Lemma dict_keys_set {V} k (v : V) d :
  dict_keys (dict_set k v d)
  = if bool_decide (k ∈ dict_keys d) then dict_keys d else dict_keys d ++ [k].
Proof.
  unfold dict_keys. induction d as [|[k0 v0] d IH]; csimpl; [done|].
  destruct (decide (k0 = k)) as [->|Hne]; csimpl.
  - rewrite bool_decide_eq_true_2; [done|left].
  - rewrite IH. destruct (bool_decide_reflect (k ∈ d.*1)) as [Hin|Hin].
    + rewrite bool_decide_eq_true_2; [done|by right].
    + rewrite bool_decide_eq_false_2; [done|].
      intros [?|?]%elem_of_cons; congruence.
Qed.

Lemma dict_set_NoDup {V} k (v : V) d :
  NoDup (dict_keys d) → NoDup (dict_keys (dict_set k v d)).
Proof.
  intros Hd. rewrite dict_keys_set. case_bool_decide as Hin; [done|].
  apply NoDup_app. split_and!; [done| |apply NoDup_singleton].
  intros x Hx ->%list_elem_of_singleton. done.
Qed.

Lemma dict_keys_set_elem {V} k (v : V) d x :
  x ∈ dict_keys (dict_set k v d) ↔ x = k ∨ x ∈ dict_keys d.
Proof.
  rewrite dict_keys_set. case_bool_decide as Hin.
  - split; [by right|]. by intros [->|?].
  - rewrite elem_of_app, list_elem_of_singleton. tauto.
Qed.

Lemma dict_get_is_Some {V} k (d : pydict V) :
  is_Some (dict_get k d) ↔ k ∈ dict_keys d.
Proof.
  unfold dict_keys. induction d as [|[k0 v0] d IH]; csimpl.
  - split; [by intros [? ?]|by intros ?%elem_of_nil].
  - destruct (decide (k0 = k)) as [->|Hne].
    + split; [left|eauto].
    + rewrite IH. split; [by right|].
      by intros [?|?]%elem_of_cons; [congruence|].
Qed.

(** ** C1: the verdict *)

Lemma required_up_cases required m :
  required_up required m = "UP" ∨ required_up required m = "DOWN".
Proof.
  induction required as [|s required IH]; simpl; [by left|].
  destruct (dict_get s m); [|by right].
  case_bool_decide; simpl; [done|by right].
Qed.

Lemma required_up_iff required m :
  required_up required m = "UP"
  ↔ Forall (λ s, dict_get s m = Some "UP") required.
Proof.
  induction required as [|s required IH]; simpl.
  - split; [constructor|done].
  - rewrite Forall_cons. destruct (dict_get s m) as [v|].
    + case_bool_decide as Hv; simpl.
      * subst v. rewrite IH. tauto.
      * split; [done|]. intros [[=] _]. congruence.
    + split; [done|]. by intros [? _].
Qed.

(** C1.  [determine_app_status] answers "UP" exactly when each of "httpd",
    "rabbitmq" and "postgresql" is a key of the map with value "UP"; in every
    other case it answers "DOWN" (so for the empty map, for a missing
    required key and for a required key with any other value); and two maps
    that agree on the three required keys get the same answer, whatever else
    they hold. *)
Theorem determine_app_status_spec (m : pydict string) :
  REQUIRED_SERVICES = ["httpd"; "rabbitmq"; "postgresql"]
  ∧ (determine_app_status m = "UP"
     ↔ Forall (λ s, dict_get s m = Some "UP") REQUIRED_SERVICES)
  ∧ (determine_app_status m = "UP" ∨ determine_app_status m = "DOWN")
  ∧ (m = [] → determine_app_status m = "DOWN")
  ∧ (∀ s, s ∈ REQUIRED_SERVICES → dict_get s m ≠ Some "UP" →
          determine_app_status m = "DOWN")
  ∧ (∀ m', Forall (λ s, dict_get s m' = dict_get s m) REQUIRED_SERVICES →
           determine_app_status m' = determine_app_status m).
Proof.
  assert (Hreq : determine_app_status m = required_up REQUIRED_SERVICES m).
  { destruct m as [|[k v] m]; [|done]. reflexivity. }
  assert (Hiff : determine_app_status m = "UP"
     ↔ Forall (λ s, dict_get s m = Some "UP") REQUIRED_SERVICES).
  { rewrite Hreq. apply required_up_iff. }
  assert (Hcases : determine_app_status m = "UP" ∨ determine_app_status m = "DOWN").
  { rewrite Hreq. apply required_up_cases. }
  split_and!; [done|done|done|by intros ->| |].
  - intros s Hs Hne. destruct Hcases as [Hup|]; [|done].
    apply Hiff in Hup. rewrite Forall_forall in Hup. by destruct (Hne (Hup s Hs)).
  - intros m' Hagree.
    assert (Hreq' : determine_app_status m' = required_up REQUIRED_SERVICES m').
    { destruct m' as [|[k v] m']; [|done]. reflexivity. }
    rewrite Hreq, Hreq'. clear -Hagree.
    induction Hagree as [|s l Hs _ IH]; simpl; [done|].
    by rewrite Hs, IH.
Qed.

Lemma determine_app_status_spec_witness :
  let m := [("httpd", "UP"); ("cron", "DOWN"); ("rabbitmq", "UP");
            ("postgresql", "UP")] in
  let m' := [("postgresql", "UP"); ("rabbitmq", "UP"); ("httpd", "UP")] in
  Forall (λ s, dict_get s m' = dict_get s m) REQUIRED_SERVICES
  ∧ determine_app_status m' = determine_app_status m
  ∧ determine_app_status m = "UP".
Proof.
  intros m m'.
  assert (H : Forall (λ s, dict_get s m' = dict_get s m) REQUIRED_SERVICES)
    by (repeat constructor).
  split; [exact H|]. split.
  - exact (proj2 (proj2 (proj2 (proj2 (proj2 (determine_app_status_spec m))))) m' H).
  - apply (proj1 (proj2 (determine_app_status_spec m))). repeat constructor.
Defined.

(** ** Strings *)

#[local] Arguments String.append : simpl nomatch.

Lemma str_app_assoc (a b c : string) : (a +:+ b) +:+ c = a +:+ (b +:+ c).
Proof. induction a as [|x a IH]; simpl; [done|by rewrite IH]. Qed.

Lemma str_app_nil_r (a : string) : a +:+ "" = a.
Proof. induction a as [|x a IH]; simpl; [done|by rewrite IH]. Qed.

Lemma str_length_app (a b : string) :
  String.length (a +:+ b) = String.length a + String.length b.
Proof. induction a as [|x a IH]; simpl; [done|by rewrite IH]. Qed.

Lemma lstrip_split s :
  ∃ l, s = l +:+ lstrip s ∧ all_space l = true.
Proof.
  induction s as [|c s (l & Hl & Hsp)]; simpl.
  - by exists "".
  - destruct (isspace c) eqn:Hc.
    + exists (String c l). simpl. rewrite Hc, Hsp. by rewrite <-Hl.
    + by exists "".
Qed.

Lemma rstrip_all_space r : all_space r = true → rstrip r = "".
Proof.
  induction r as [|c r IH]; simpl; [done|].
  intros [Hc Hr]%andb_true_iff. by rewrite IH, Hc.
Qed.

Lemma rstrip_split s :
  ∃ r, s = rstrip s +:+ r ∧ all_space r = true.
Proof.
  induction s as [|c s (r & Hr & Hsp)]; simpl.
  - by exists "".
  - destruct (rstrip s) as [|c' s'] eqn:Hs.
    + simpl in Hr. subst r. destruct (isspace c) eqn:Hc.
      * exists (String c s). simpl. by rewrite Hc, Hsp.
      * by exists s.
    + exists r. simpl. by rewrite Hr at 1.
Qed.

Lemma lstrip_app_space l t : all_space l = true → lstrip (l +:+ t) = lstrip t.
Proof.
  induction l as [|c l IH]; simpl; [done|].
  intros [Hc Hl]%andb_true_iff. rewrite Hc. auto.
Qed.

Lemma rstrip_app_space t r : all_space r = true → rstrip (t +:+ r) = rstrip t.
Proof.
  intros Hr. induction t as [|c t IH]; simpl.
  - by apply rstrip_all_space.
  - by rewrite IH.
Qed.

(** Trimming leaves "active" exactly for "active" between two runs of
    whitespace. *)
Lemma strip_active s :
  strip s = "active"
  ↔ ∃ l r, s = l +:+ "active" +:+ r ∧ all_space l = true ∧ all_space r = true.
Proof.
  unfold strip. split.
  - intros Hs. destruct (lstrip_split s) as (l & Hl & Hlsp).
    destruct (rstrip_split (lstrip s)) as (r & Hr & Hrsp).
    exists l, r. rewrite Hs in Hr. by rewrite <-Hr.
  - intros (l & r & -> & Hl & Hr).
    rewrite lstrip_app_space by done.
    change (lstrip ("active" +:+ r)) with ("active" +:+ r).
    by rewrite rstrip_app_space.
Qed.

(** ** C6: one probe *)

Lemma check_service_status_run (service_name : string) (w : OS) :
  service_name ≠ "" →
  ∃ status,
    ServiceChecker.check_service_status service_name w = (Ok status, os_step w)
    ∧ (status = "UP" ∨ status = "DOWN")
    ∧ (status = "UP"
       ↔ ∃ l r, os_run w (os_tick w) service_name
                = Ok {| returncode := 0; stdout := l +:+ "active" +:+ r |}
                ∧ all_space l = true ∧ all_space r = true).
Proof.
  intros Hname. unfold ServiceChecker.check_service_status.
  rewrite bool_decide_eq_false_2 by done.
  unfold try_except, bind, subprocess_run, ret.
  destruct (os_run w (os_tick w) service_name) as [[rc out]|e] eqn:Hrun; simpl.
  - destruct (rc =? 0)%Z eqn:Hrc; simpl.
    + apply Z.eqb_eq in Hrc as ->. case_bool_decide as Hout.
      * exists "UP". split_and!; [done|by left|]. split; [|done].
        intros _. apply strip_active in Hout as (l & r & -> & ? & ?).
        by exists l, r.
      * exists "DOWN". split_and!; [done|by right|]. split; [done|].
        intros (l & r & [= ->] & Hl & Hr). destruct Hout.
        apply strip_active. by exists l, r.
    + exists "DOWN". split_and!; [done|by right|]. split; [done|].
      intros (l & r & [= -> _] & _). done.
  - exists "DOWN". split_and!; [done|by right|]. split; [done|].
    by intros (l & r & [=] & _).
Qed.


(** C6.  For a non-empty name, [check_service_status] always returns a
    status and never raises; the status is "UP" exactly when [systemctl]
    completed with exit code 0 and printed "active", possibly surrounded by
    whitespace; after any other exit code or output, and after any
    exception of [subprocess.run] (time-out, missing binary, anything else),
    it is "DOWN". *)
Theorem check_service_status_spec (service_name : string) (w : OS) :
  service_name ≠ "" →
  ∃ status,
    ServiceChecker.check_service_status service_name w = (Ok status, os_step w)
    ∧ (status = "UP" ∨ status = "DOWN")
    ∧ (status = "UP"
       ↔ ∃ l r, os_run w (os_tick w) service_name
                = Ok {| returncode := 0; stdout := l +:+ "active" +:+ r |}
                ∧ all_space l = true ∧ all_space r = true).
Proof. apply check_service_status_run. Qed.

Lemma check_service_status_spec_witness :
  "httpd" ≠ ""
  ∧ ServiceChecker.check_service_status "httpd" (example_os "")
    = (Ok "UP", os_step (example_os "")).
Proof.
  split; [done|].
  destruct (check_service_status_spec "httpd" (example_os "")) as (s & Hs & _ & Hup);
    [done|].
  rewrite Hs. f_equal. f_equal. apply Hup.
  exists "", (String newline ""). by vm_compute.
Defined.

(** ** C2: the batch of probes *)

Section check_all.
Context {W : Type} {checker : Checker W}.

Lemma check_loop_step service rest statuses (w : W) :
  check_loop (service :: rest) statuses w
  = check_loop rest (dict_set service (probe_outcome service w) statuses)
      (sc_check_service_status service w).2.
Proof.
  simpl. unfold bind, try_except, probe_outcome, ret.
  by destruct (sc_check_service_status service w) as [[status|e] w'].
Qed.

(** The loop never raises; it adds the probed names to the keys, leaves the
    other entries alone, and the entry of a probed name is the outcome of its
    last probe. *)
Lemma check_loop_spec names statuses (w : W) :
  ∃ m, check_loop names statuses w = (Ok m, world_after names w)
    ∧ (NoDup (dict_keys statuses) → NoDup (dict_keys m))
    ∧ (∀ k, k ∈ dict_keys m ↔ k ∈ dict_keys statuses ∨ k ∈ names)
    ∧ (∀ k, k ∉ names → dict_get k m = dict_get k statuses)
    ∧ (∀ l1 name l2, names = l1 ++ name :: l2 → name ∉ l2 →
         dict_get name m = Some (probe_outcome name (world_after l1 w))).
Proof.
  revert statuses w. induction names as [|service rest IH]; intros statuses w.
  - exists statuses. split_and!; [done|done| |done|].
    + intros k. rewrite elem_of_nil. tauto.
    + by intros [|??] ??.
  - rewrite check_loop_step.
    destruct (IH (dict_set service (probe_outcome service w) statuses)
                (sc_check_service_status service w).2)
      as (m & Hrun & Hnodup & Hkeys & Hother & Hlast).
    exists m. split_and!; [done| | | |].
    + intros ?. by apply Hnodup, dict_set_NoDup.
    + intros k. rewrite Hkeys, dict_keys_set_elem, elem_of_cons. tauto.
    + intros k [Hk1 Hk2]%not_elem_of_cons.
      rewrite Hother, dict_get_set by done. by rewrite decide_False.
    + intros [|x l1] name l2 [= -> ->] Hnotin; simpl.
      * rewrite Hother, dict_get_set by done. by rewrite decide_True.
      * by eapply Hlast.
Qed.

(** C2.  [check_service_statuses] raises [ValueError] when the list given is
    empty, and only then: without a list it probes the three required
    services, and for a non-empty list it returns a dictionary and raises
    nothing.  The keys of that dictionary are exactly the names given.  The
    value of a name is what its (last) probe answered, and "DOWN" when that
    probe raised, whatever the probes of the other names did; so when the
    probe only ever answers "UP" or "DOWN", every value is "UP" or "DOWN". *)
Theorem check_service_statuses_spec (w : W) :
  check_service_statuses (Some []) w
  = (Raise (Exn ValueError "services list cannot be empty"), w)
  ∧ check_service_statuses None w
    = check_service_statuses (Some REQUIRED_SERVICES) w
  ∧ ∀ names, names ≠ [] →
      ∃ m, check_service_statuses (Some names) w = (Ok m, world_after names w)
        ∧ NoDup (dict_keys m)
        ∧ (∀ k, k ∈ dict_keys m ↔ k ∈ names)
        ∧ (∀ l1 name l2, names = l1 ++ name :: l2 → name ∉ l2 →
             dict_get name m = Some (probe_outcome name (world_after l1 w)))
        ∧ ((∀ name w0 status w1,
              sc_check_service_status name w0 = (Ok status, w1) →
              status = "UP" ∨ status = "DOWN") →
           ∀ k v, dict_get k m = Some v → v = "UP" ∨ v = "DOWN").
Proof.
  split_and!; [done|done|]. intros names Hne.
  destruct (check_loop_spec names [] w) as (m & Hrun & Hnodup & Hkeys & _ & Hlast).
  exists m. split_and!.
  - unfold check_service_statuses. simpl. by destruct names.
  - apply Hnodup. constructor.
  - intros k. rewrite Hkeys. unfold dict_keys. simpl. rewrite elem_of_nil. tauto.
  - done.
  - intros Hprobe k v Hk.
    assert (Hin : k ∈ names).
    { assert (Hk' : k ∈ dict_keys m) by (apply dict_get_is_Some; by exists v).
      apply Hkeys in Hk' as [[]%elem_of_nil|?]; done. }
    apply list_elem_of_split_r in Hin as (l1 & l2 & -> & Hnotin).
    rewrite (Hlast l1 k l2 eq_refl Hnotin) in Hk. injection Hk as <-.
    unfold probe_outcome.
    destruct (sc_check_service_status k (world_after l1 w)) as [[s|e] w1] eqn:Hp;
      simpl; [by eapply Hprobe|by right].
Qed.

End check_all.

Lemma check_service_status_contract name w0 status w1 :
  ServiceChecker.check_service_status name w0 = (Ok status, w1) →
  status = "UP" ∨ status = "DOWN".
Proof.
  destruct (decide (name = "")) as [->|Hne]; [done|].
  destruct (check_service_status_run name w0 Hne) as (s & -> & Hs & _).
  by intros [= <- _].
Qed.

(** The probe of the empty name raises; its entry is "DOWN" and the entries
    of the two other names are what [systemctl] said. *)
Lemma check_service_statuses_spec_witness :
  let sc := service_checker (ServiceChecker.__init__ (Ok "host-1")) in
  let names := ["httpd"; ""; "rabbitmq"] in
  names ≠ []
  ∧ (sc_check_service_status "" (world_after ["httpd"] (example_os ""))).1
    = Raise (Exn ValueError "service_name must be a non-empty string")
  ∧ (check_service_statuses (Some names) (example_os "")).1
    = Ok [("httpd", "UP"); ("", "DOWN"); ("rabbitmq", "DOWN")]
  ∧ ∀ m, (check_service_statuses (Some names) (example_os "")).1 = Ok m →
         ∀ k v, dict_get k m = Some v → v = "UP" ∨ v = "DOWN".
Proof.
  intros sc names. split; [done|]. split; [reflexivity|]. split; [reflexivity|].
  intros m Hm.
  destruct (proj2 (proj2 (check_service_statuses_spec (example_os ""))) names)
    as (m' & Hrun & _ & _ & _ & Hvalues); [done|].
  rewrite Hrun in Hm. injection Hm as <-.
  apply Hvalues. exact check_service_status_contract.
Defined.

(** ** Decimal fields *)

Lemma str_take_drop n s : str_take n s +:+ str_drop n s = s.
Proof.
  revert s. induction n as [|n IH]; intros [|c s]; simpl; [done..|].
  by rewrite IH.
Qed.

Lemma str_take_app_ge a b n :
  String.length a ≤ n →
  str_take n (a +:+ b) = a +:+ str_take (n - String.length a) b.
Proof.
  revert n. induction a as [|c a IH]; intros n Hn; simpl in *.
  - by rewrite Nat.sub_0_r.
  - destruct n as [|n]; [lia|]. simpl. rewrite IH by lia. done.
Qed.

Lemma str_drop_app_ge a b n :
  String.length a ≤ n →
  str_drop n (a +:+ b) = str_drop (n - String.length a) b.
Proof.
  revert n. induction a as [|c a IH]; intros n Hn; simpl in *.
  - by rewrite Nat.sub_0_r.
  - destruct n as [|n]; [lia|]. simpl. by rewrite IH by lia.
Qed.

Lemma str_take_0 s : str_take 0 s = "".
Proof. by destruct s. Qed.

Lemma digit_char_code n : (n < 10)%N → N_of_ascii (digit_char n) = (48 + n)%N.
Proof. intros Hn. unfold digit_char. apply N_ascii_embedding. lia. Qed.

Lemma digit_val_char n : (n < 10)%N → digit_val (digit_char n) = Some n.
Proof.
  intros Hn. unfold digit_val. rewrite digit_char_code by done.
  rewrite (proj2 (N.leb_le _ _)), (proj2 (N.leb_le _ _)) by lia.
  simpl. f_equal. lia.
Qed.

Lemma digit_char_inj m n :
  (m < 10)%N → (n < 10)%N → digit_char m = digit_char n → m = n.
Proof.
  intros Hm Hn Heq. apply (f_equal N_of_ascii) in Heq.
  rewrite !digit_char_code in Heq by done. lia.
Qed.

Lemma pad_digits_length k n : String.length (pad_digits k n) = k.
Proof. induction k as [|k IH]; simpl; [done|by rewrite IH]. Qed.

Lemma parse_digits_pad k n acc :
  parse_digits acc (pad_digits k n)
  = Some (acc * 10 ^ N.of_nat k + n mod 10 ^ N.of_nat k)%N.
Proof.
  revert acc. induction k as [|k IH]; intros acc.
  - simpl. f_equal. rewrite N.mod_1_r. lia.
  - cbn [pad_digits parse_digits].
    rewrite digit_val_char by (apply N.mod_lt; lia).
    simpl. rewrite IH. f_equal.
    rewrite Nat2N.inj_succ, N.pow_succ_r'.
    rewrite (N.mul_comm 10 (10 ^ N.of_nat k)), N.Div0.mod_mul_r. lia.
Qed.

Lemma parse_int_pad k n :
  0 < k → (n < 10 ^ N.of_nat k)%N → parse_int (pad_digits k n) = Some n.
Proof.
  intros Hk Hn. destruct k as [|k]; [lia|]. unfold parse_int.
  cbn [pad_digits]. rewrite <-(N.mod_small n (10 ^ N.of_nat (S k))) at 3 by done.
  apply (parse_digits_pad (S k) n 0).
Qed.

Lemma parse_field_pad k n rest :
  0 < k → (n < 10 ^ N.of_nat k)%N →
  parse_field k (pad_digits k n +:+ rest) = Some n.
Proof.
  intros Hk Hn. unfold parse_field.
  rewrite str_take_app_ge by (by rewrite pad_digits_length).
  rewrite pad_digits_length, Nat.sub_diag, str_take_0, str_app_nil_r.
  rewrite pad_digits_length, Nat.eqb_refl. by apply parse_int_pad.
Qed.

Lemma str_drop_pad k n rest : str_drop k (pad_digits k n +:+ rest) = rest.
Proof.
  rewrite str_drop_app_ge by (by rewrite pad_digits_length).
  by rewrite pad_digits_length, Nat.sub_diag.
Qed.

Lemma pad_digits_inj k m n :
  (m < 10 ^ N.of_nat k)%N → (n < 10 ^ N.of_nat k)%N →
  pad_digits k m = pad_digits k n → m = n.
Proof.
  intros Hm Hn Heq.
  pose proof (parse_digits_pad k m 0) as H1.
  pose proof (parse_digits_pad k n 0) as H2.
  rewrite Heq, H2 in H1. injection H1 as H1.
  rewrite !N.mod_small in H1 by done. lia.
Qed.

(** ** ISO timestamps: what [isoformat] prints, [fromisoformat] reads *)

Lemma find_sign_pad k n rest :
  find_sign (pad_digits k n +:+ rest)
  = '(l, sg, r) ← find_sign rest; Some (pad_digits k n +:+ l, sg, r).
Proof.
  induction k as [|k IH]; simpl.
  - by destruct (find_sign rest) as [[[??]?]|].
  - assert (Hd : ∀ x, (x < 10)%N → digit_char x ≠ "+"%char ∧ digit_char x ≠ "-"%char).
    { intros x Hx. split; intros Heq; apply (f_equal N_of_ascii) in Heq;
        rewrite digit_char_code in Heq by done; simpl in Heq; lia. }
    destruct (Hd ((n / 10 ^ N.of_nat k) mod 10)%N) as [H1 H2];
      [apply N.mod_lt; lia|].
    rewrite !bool_decide_eq_false_2 by done. simpl. rewrite IH.
    by destruct (find_sign rest) as [[[??]?]|].
Qed.

Lemma str_take_S n c s : str_take (S n) (String c s) = String c (str_take n s).
Proof. done. Qed.

Lemma str_drop_S n c s : str_drop (S n) (String c s) = str_drop n s.
Proof. done. Qed.

Lemma str_drop_0 s : str_drop 0 s = s.
Proof. by destruct s. Qed.

Lemma str_take_all s n : String.length s ≤ n → str_take n s = s.
Proof.
  revert n. induction s as [|c s IH]; intros [|n] Hn; simpl in *; [done..|lia|].
  rewrite IH; [done|lia].
Qed.

Lemma str_replace_app c r a b :
  str_replace c r (a +:+ b) = str_replace c r a +:+ str_replace c r b.
Proof.
  induction a as [|x a IH]; simpl; [done|].
  destruct (decide (x = c)); simpl; rewrite IH; [|done].
  by rewrite str_app_assoc.
Qed.

(** Replacing a character that is not a decimal digit leaves a decimal
    field as it is. *)
Lemma str_replace_pad c r k n :
  (N_of_ascii c < 48 ∨ 57 < N_of_ascii c)%N →
  str_replace c r (pad_digits k n) = pad_digits k n.
Proof.
  intros Hc. induction k as [|k IH]; simpl; [done|].
  rewrite IH. rewrite decide_False; [done|].
  assert (Hx : ((n / 10 ^ N.of_nat k) mod 10 < 10)%N) by (apply N.mod_lt; lia).
  revert Hx. generalize ((n / 10 ^ N.of_nat k) mod 10)%N. intros x Hx Heq.
  apply (f_equal N_of_ascii) in Heq.
  rewrite digit_char_code in Heq by done. lia.
Qed.

Lemma parse_utc_offset : parse_hh_mm_ss_ff "00:00" = Some (0, 0, 0, 0)%N.
Proof. reflexivity. Qed.

#[local] Opaque pad_digits str_take str_drop.

Lemma str_take_pad_ge k n rest j :
  k ≤ j → str_take j (pad_digits k n +:+ rest) = pad_digits k n +:+ str_take (j - k) rest.
Proof.
  intros Hk. rewrite str_take_app_ge by (by rewrite pad_digits_length).
  by rewrite pad_digits_length.
Qed.

Lemma str_drop_pad_ge k n rest j :
  k ≤ j → str_drop j (pad_digits k n +:+ rest) = str_drop (j - k) rest.
Proof.
  intros Hk. rewrite str_drop_app_ge by (by rewrite pad_digits_length).
  by rewrite pad_digits_length.
Qed.

Lemma iso_date_length y m d : String.length (iso_date y m d) = 10.
Proof.
  unfold iso_date. rewrite !str_length_app, !pad_digits_length. done.
Qed.

Lemma parse_isoformat_date_iso y m d :
  (y < 10000)%N → (m < 100)%N → (d < 100)%N →
  parse_isoformat_date (iso_date y m d) = Some (y, m, d).
Proof.
  intros Hy Hm Hd. unfold parse_isoformat_date, iso_date.
  rewrite parse_field_pad by (done || lia). simpl.
  rewrite str_drop_pad. simpl.
  rewrite parse_field_pad by (done || lia). simpl.
  rewrite str_drop_pad. simpl.
  rewrite <-(str_app_nil_r (pad_digits 2 d)) at 1.
  rewrite parse_field_pad by (done || lia). simpl.
  by rewrite pad_digits_length.
Qed.

Lemma parse_comps_iso h m s rest :
  (h < 100)%N → (m < 100)%N → (s < 100)%N →
  parse_comps 2 (iso_time h m s +:+ rest) = Some ([h; m; s], rest).
Proof.
  intros Hh Hm Hs. unfold iso_time. rewrite !str_app_assoc. simpl.
  rewrite parse_field_pad by (done || lia). simpl.
  rewrite str_drop_pad. simpl.
  rewrite parse_field_pad by (done || lia). simpl.
  rewrite str_drop_pad. simpl.
  rewrite parse_field_pad by (done || lia). simpl.
  by rewrite str_drop_pad.
Qed.

Lemma parse_hh_mm_ss_ff_iso h m s us :
  (h < 100)%N → (m < 100)%N → (s < 100)%N → (us < 1000000)%N →
  parse_hh_mm_ss_ff (iso_time h m s +:+ iso_fraction us) = Some (h, m, s, us).
Proof.
  intros Hh Hm Hs Hus. unfold parse_hh_mm_ss_ff.
  rewrite parse_comps_iso by done. simpl. unfold iso_fraction.
  destruct (N.eqb_spec us 0) as [->|Hne]; simpl; [done|].
  rewrite pad_digits_length. simpl.
  by rewrite parse_int_pad by (done || lia).
Qed.

Lemma find_sign_iso h m s us tz :
  find_sign (iso_time h m s +:+ iso_fraction us +:+ String "+" tz)
  = Some (iso_time h m s +:+ iso_fraction us, "+"%char, tz).
Proof.
  unfold iso_time, iso_fraction. rewrite !str_app_assoc.
  rewrite find_sign_pad. simpl. rewrite find_sign_pad. simpl.
  rewrite find_sign_pad. destruct (us =? 0)%N; simpl.
  - by rewrite str_app_nil_r.
  - rewrite find_sign_pad. simpl. by rewrite str_app_nil_r.
Qed.

Lemma valid_datetime_bounds d :
  valid_datetime d = true →
  (1 ≤ year d < 10000 ∧ month d < 100 ∧ day d < 100 ∧ hour d < 100
   ∧ minute d < 100 ∧ second d < 100 ∧ microsecond d < 1000000)%N.
Proof.
  unfold valid_datetime. rewrite !andb_true_iff, !N.leb_le.
  intros (((((((((?&?)&?)&?)&?)&Hday)&?)&?)&?)&?).
  assert (days_in_month (year d) (month d) ≤ 31)%N.
  { unfold days_in_month.
    repeat (match goal with
            | |- context [match ?x with _ => _ end] => destruct x
            | |- context [if ?x then _ else _] => destruct x
            end; try lia). }
  lia.
Qed.

(** The text [isoformat] prints: date, "T", time and fraction. *)
Lemma isoformat_parts d :
  isoformat d
  = iso_date (year d) (month d) (day d)
    +:+ String "T" (iso_time (hour d) (minute d) (second d)
                    +:+ iso_fraction (microsecond d)).
Proof.
  unfold isoformat, iso_date, iso_time, iso_fraction.
  rewrite !str_app_assoc. simpl. by rewrite ?str_app_assoc.
Qed.

(** A timestamp printed by [isoformat], followed by the offset that stands
    for "Z", reads back as the value it was printed from. *)
Lemma fromisoformat_isoformat d :
  valid_datetime d = true →
  fromisoformat (isoformat d +:+ "+00:00") = Some (d, Some 0%Z).
Proof.
  intros Hv. destruct (valid_datetime_bounds d Hv) as (Hy&Hm&Hd&Hh&Hmi&Hs&Hus).
  rewrite isoformat_parts. unfold fromisoformat.
  rewrite str_app_assoc.
  rewrite str_take_app_ge by (rewrite iso_date_length; lia).
  rewrite str_drop_app_ge by (rewrite iso_date_length; lia).
  rewrite iso_date_length. simpl.
  rewrite str_take_0, str_app_nil_r, str_drop_S, str_drop_0.
  rewrite parse_isoformat_date_iso by (done || lia). simpl.
  rewrite !str_length_app, iso_date_length. simpl.
  unfold parse_isoformat_time. rewrite str_app_assoc.
  rewrite find_sign_iso. rewrite parse_hh_mm_ss_ff_iso by done. simpl.
  rewrite parse_utc_offset. simpl.
  destruct d; simpl in *. by rewrite Hv.
Qed.

Lemma fromisoformat_iso_date y m d :
  valid_datetime (midnight y m d) = true →
  fromisoformat (iso_date y m d) = Some (midnight y m d, None).
Proof.
  intros Hv. destruct (valid_datetime_bounds _ Hv) as (Hy&Hm&Hd&_). simpl in *.
  unfold fromisoformat.
  rewrite str_take_all by (by rewrite iso_date_length).
  rewrite parse_isoformat_date_iso by (done || lia). simpl.
  rewrite iso_date_length. simpl. fold (midnight y m d). by rewrite Hv.
Qed.

Lemma str_replace_iso_date c r y m d :
  (N_of_ascii c < 48 ∨ 57 < N_of_ascii c)%N → c ≠ "-"%char →
  str_replace c r (iso_date y m d) = iso_date y m d.
Proof.
  intros Hc Hm. unfold iso_date.
  rewrite !str_replace_app, !str_replace_pad by done.
  simpl. by rewrite !decide_False by done.
Qed.

(** "Z" becomes the offset; the rest of a printed timestamp has no "Z". *)
Lemma str_replace_Z_isoformat d :
  str_replace "Z" "+00:00" (isoformat d +:+ "Z") = isoformat d +:+ "+00:00".
Proof.
  rewrite str_replace_app. f_equal.
  rewrite isoformat_parts, str_replace_app.
  rewrite str_replace_iso_date by (done || simpl; lia). f_equal.
  simpl. f_equal. unfold iso_time, iso_fraction.
  rewrite !str_replace_app, !str_replace_pad by (simpl; lia).
  destruct (microsecond d =? 0)%N; simpl; [done|].
  by rewrite str_replace_pad by (simpl; lia).
Qed.

(** ** C3: constructing a record *)

Lemma parse_field_length k s n :
  parse_field k s = Some n → String.length (str_take k s) = k.
Proof.
  unfold parse_field.
  by destruct (Nat.eqb_spec (String.length (str_take k s)) k).
Qed.

Lemma parse_isoformat_date_length date :
  is_Some (parse_isoformat_date date) → String.length date = 10.
Proof.
  unfold parse_isoformat_date. intros [ymd Hp].
  rewrite <-(str_take_drop 4 date), str_length_app.
  destruct (parse_field 4 date) as [y|] eqn:Hy; [|done].
  rewrite (parse_field_length _ _ _ Hy). simpl in Hp.
  destruct (str_drop 4 date) as [|c1 r1]; [done|].
  destruct (c1 =c "-"%char); [|done]. simpl.
  rewrite <-(str_take_drop 2 r1), str_length_app.
  destruct (parse_field 2 r1) as [m|] eqn:Hm; [|done].
  rewrite (parse_field_length _ _ _ Hm). simpl in Hp.
  destruct (str_drop 2 r1) as [|c2 r2]; [done|].
  destruct (c2 =c "-"%char); [|done].
  destruct (parse_field 2 r2) as [d|]; [|done]. simpl in Hp.
  destruct (Nat.eqb_spec (String.length r2) 2) as [Hr2|]; [|done].
  simpl. by rewrite Hr2.
Qed.

Lemma full_date_time_length t : full_date_time t → 10 < String.length t.
Proof.
  intros (date & sep & rest & -> & Hdate%parse_isoformat_date_length & _).
  rewrite str_length_app, Hdate. simpl. lia.
Qed.

(** The claim as the specification words it fails at a timestamp that is a
    date and nothing else: the record is constructed although the timestamp
    has no time of day. *)
Lemma date_only_timestamp_accepted :
  ¬ ((∃ st, ServiceStatus_init (PyStr "httpd") (PyStr "UP") (PyStr "host-1")
              (PyStr "2024-01-15") = Ok st)
     ↔ ("httpd" ≠ "" ∧ "host-1" ≠ "" ∧ "2024-01-15" ≠ ""
        ∧ ("UP" = "UP" ∨ "UP" = "DOWN") ∧ full_date_time "2024-01-15")).
Proof.
  intros [Hconstructed _].
  destruct Hconstructed as (_ & _ & _ & _ & Hfull%full_date_time_length).
  - eexists. reflexivity.
  - simpl in Hfull. lia.
Qed.

Lemma nonempty_str_inv v :
  negb (truthy v) || negb (isinstance_str v) = false →
  ∃ s, v = PyStr s ∧ s ≠ "".
Proof.
  destruct v as [|n|s|st|attrs]; simpl; rewrite ?orb_true_r; try done.
  rewrite orb_false_r, negb_involutive. case_bool_decide; [done|]. eauto.
Qed.

Lemma validate_ok_inv {parser : IsoParser} n s h t :
  _validate n s h t = Ok tt →
  ∃ n' s' h' t',
    n = PyStr n' ∧ s = PyStr s' ∧ h = PyStr h' ∧ t = PyStr t'
    ∧ n' ≠ "" ∧ (s' = "UP" ∨ s' = "DOWN") ∧ h' ≠ "" ∧ t' ≠ ""
    ∧ is_Some (datetime_fromisoformat (str_replace "Z" "+00:00" t')).
Proof.
  unfold _validate.
  destruct (negb (truthy n) || _) eqn:Hn; [done|].
  apply nonempty_str_inv in Hn as (n' & -> & Hn).
  destruct (py_in s _) eqn:Hs; [|done]. simpl.
  destruct s as [| |s'| |]; try done. simpl in Hs.
  apply bool_decide_eq_true in Hs.
  destruct (negb (truthy h) || _) eqn:Hh; [done|].
  apply nonempty_str_inv in Hh as (h' & -> & Hh).
  destruct (negb (truthy t) || _) eqn:Ht; [done|].
  apply nonempty_str_inv in Ht as (t' & -> & Ht). simpl.
  destruct (datetime_fromisoformat _) as [p|] eqn:Hp; [|done]. intros _.
  exists n', s', h', t'. split_and!; try done.
  apply elem_of_cons in Hs as [?|Hs]; [by left|].
  apply list_elem_of_singleton in Hs. by right.
Qed.

Lemma validate_ok {parser : IsoParser} n s h t :
  n ≠ "" → (s = "UP" ∨ s = "DOWN") → h ≠ "" → t ≠ "" →
  is_Some (datetime_fromisoformat (str_replace "Z" "+00:00" t)) →
  _validate (PyStr n) (PyStr s) (PyStr h) (PyStr t) = Ok tt.
Proof.
  intros Hn Hs Hh Ht [p Hp]. unfold _validate. simpl.
  rewrite !(bool_decide_eq_false_2 (_ = "")) by done. simpl.
  rewrite bool_decide_eq_true_2.
  - simpl. by rewrite Hp.
  - destruct Hs as [->| ->]; [left|right; left].
Qed.

Lemma validate_raises {parser : IsoParser} n s h t e :
  _validate n s h t = Raise e → exn_cls e = ValueError.
Proof.
  unfold _validate.
  repeat (match goal with
          | |- context [if ?b then _ else _] => destruct b
          | |- context [match ?o with Some _ => _ | None => _ end] => destruct o
          end; try done); by intros [= <-].
Qed.

(** C3, amended.  Whatever [datetime.fromisoformat] of the interpreter in
    use accepts: constructing a [ServiceStatus] succeeds exactly when the
    name, the host and the timestamp are non-empty strings, the status is
    "UP" or "DOWN", and the timestamp, with every "Z" replaced by "+00:00",
    is accepted by that parser; the record then holds the four strings.
    Otherwise the constructor raises [ValueError] and no record exists.  A
    time of day is not required: where the parser accepts a calendar date
    ([YYYY-MM-DD]), as the library does, a timestamp that is this date
    alone gives a record as soon as the other three fields are valid. *)
Theorem ServiceStatus_init_spec {parser : IsoParser} (n s h t : pyval) :
  (∀ st, ServiceStatus_init n s h t = Ok st
         ↔ (n = PyStr (service_name st) ∧ s = PyStr (service_status st)
            ∧ h = PyStr (host_name st) ∧ t = PyStr (timestamp st))
           ∧ service_name st ≠ ""
           ∧ (service_status st = "UP" ∨ service_status st = "DOWN")
           ∧ host_name st ≠ "" ∧ timestamp st ≠ ""
           ∧ is_Some (datetime_fromisoformat
                        (str_replace "Z" "+00:00" (timestamp st))))
  ∧ (∀ e, ServiceStatus_init n s h t = Raise e → exn_cls e = ValueError)
  ∧ (∀ y m d, is_Some (datetime_fromisoformat (iso_date y m d)) →
       t = PyStr (iso_date y m d) →
       (∃ st, ServiceStatus_init n s h t = Ok st)
       ↔ (∃ n' s' h', n = PyStr n' ∧ s = PyStr s' ∧ h = PyStr h'
                      ∧ n' ≠ "" ∧ (s' = "UP" ∨ s' = "DOWN") ∧ h' ≠ "")).
Proof.
  assert (Hiff : ∀ st, ServiceStatus_init n s h t = Ok st
         ↔ (n = PyStr (service_name st) ∧ s = PyStr (service_status st)
            ∧ h = PyStr (host_name st) ∧ t = PyStr (timestamp st))
           ∧ service_name st ≠ ""
           ∧ (service_status st = "UP" ∨ service_status st = "DOWN")
           ∧ host_name st ≠ "" ∧ timestamp st ≠ ""
           ∧ is_Some (datetime_fromisoformat
                        (str_replace "Z" "+00:00" (timestamp st)))).
  { intros st. unfold ServiceStatus_init. split.
    - destruct (_validate n s h t) as [[]|e] eqn:Hv; [|done].
      apply validate_ok_inv in Hv
        as (n' & s' & h' & t' & -> & -> & -> & -> & ? & ? & ? & ? & ?).
      by intros [= <-].
    - intros ((-> & -> & -> & ->) & ? & ? & ? & ? & ?).
      rewrite validate_ok by done. by destruct st. }
  split_and!; [done| |].
  - intros e. unfold ServiceStatus_init.
    destruct (_validate n s h t) as [[]|e'] eqn:Hv; [done|].
    intros [= <-]. by eapply validate_raises.
  - intros y m d Hdate ->. split.
    + intros [st (( -> & -> & -> & _) & ? & ? & ? & _)%Hiff]. eauto 10.
    + intros (n' & s' & h' & -> & -> & -> & ? & ? & ?).
      exists {| service_name := n'; service_status := s'; host_name := h';
                timestamp := iso_date y m d |}.
      apply Hiff. simpl. split_and!; try done.
      by rewrite str_replace_iso_date by (done || simpl; lia).
Qed.

Lemma ServiceStatus_init_spec_witness :
  is_Some (fromisoformat (iso_date 2024 1 15))
  ∧ PyStr "2024-01-15" = PyStr (iso_date 2024 1 15)
  ∧ ∃ st, ServiceStatus_init (PyStr "httpd") (PyStr "UP") (PyStr "host-1")
            (PyStr "2024-01-15") = Ok st.
Proof.
  assert (Hdate : is_Some (fromisoformat (iso_date 2024 1 15)))
    by (vm_compute; eauto).
  split; [exact Hdate|]. split; [reflexivity|].
  apply (proj2 (proj2 (ServiceStatus_init_spec (parser := python_3_8)
                         (PyStr "httpd") (PyStr "UP")
                         (PyStr "host-1") (PyStr "2024-01-15")))
           2024%N 1%N 15%N Hdate eq_refl).
  exists "httpd", "UP", "host-1". split_and!; try done. by left.
Defined.

(** ** The report of the real checker *)

Lemma determine_app_status_cases m :
  determine_app_status m = "UP" ∨ determine_app_status m = "DOWN".
Proof. destruct m as [|[k v] m]; [by right|]. apply required_up_cases. Qed.

Lemma isoformat_Z_nonempty d : isoformat d +:+ "Z" ≠ "".
Proof.
  intros Heq. apply (f_equal String.length) in Heq.
  rewrite isoformat_parts, !str_length_app, iso_date_length in Heq. done.
Qed.

(** A record stamped by the clock is accepted. *)
Lemma init_stamped name status host d :
  name ≠ "" → (status = "UP" ∨ status = "DOWN") → host ≠ "" →
  valid_datetime d = true →
  ServiceStatus_init (PyStr name) (PyStr status) (PyStr host)
    (PyStr (isoformat d +:+ "Z"))
  = Ok {| service_name := name; service_status := status; host_name := host;
          timestamp := isoformat d +:+ "Z" |}.
Proof.
  intros Hn Hs Hh Hd. unfold ServiceStatus_init.
  rewrite validate_ok; [done..| |]; [apply isoformat_Z_nonempty|].
  rewrite str_replace_Z_isoformat, fromisoformat_isoformat by done. eauto.
Qed.

(** Without a host name no record is accepted. *)
Lemma init_no_host {parser : IsoParser} name status ts :
  name ≠ "" → (status = "UP" ∨ status = "DOWN") →
  ServiceStatus_init (PyStr name) (PyStr status) (PyStr "") (PyStr ts)
  = Raise (Exn ValueError "host_name must be a non-empty string").
Proof.
  intros Hn Hs. unfold ServiceStatus_init, _validate. simpl.
  rewrite (bool_decide_eq_false_2 (name = "")) by done. simpl.
  rewrite bool_decide_eq_true_2; [done|].
  destruct Hs as [->| ->]; [left|right; left].
Qed.

Section real_checker.
Variable self : ServiceChecker.t.

(** The three probes of the required services. *)
Lemma check_required (w : OS) :
  ∃ s1 s2 s3,
    check_service_statuses (checker := service_checker self) None w
    = (Ok [("httpd", s1); ("rabbitmq", s2); ("postgresql", s3)],
       os_step (os_step (os_step w)))
    ∧ (s1 = "UP" ∨ s1 = "DOWN") ∧ (s2 = "UP" ∨ s2 = "DOWN")
    ∧ (s3 = "UP" ∨ s3 = "DOWN").
Proof.
  destruct (check_service_status_run "httpd" w) as (s1 & H1 & Hs1 & _); [done|].
  destruct (check_service_status_run "rabbitmq" (os_step w))
    as (s2 & H2 & Hs2 & _); [done|].
  destruct (check_service_status_run "postgresql" (os_step (os_step w)))
    as (s3 & H3 & Hs3 & _); [done|].
  exists s1, s2, s3. split; [|done].
  unfold check_service_statuses. simpl.
  unfold bind, try_except. simpl. rewrite H1. simpl. rewrite H2. simpl.
  rewrite H3. done.
Qed.

Lemma status_objects_loop_no_host items ts acc :
  status_objects_loop items "" ts acc = acc.
Proof.
  revert acc. induction items as [|[name status] items IH]; intros acc; [done|].
  simpl. destruct (ServiceStatus_init _ _ _ _) as [st|e] eqn:Hinit; [|done].
  unfold ServiceStatus_init in Hinit.
  destruct (_validate _ _ _ _) as [[]|] eqn:Hv; [|done].
  by apply validate_ok_inv in Hv as (?&?&?&?&_&_&[= <-]&_&_&_&?&_).
Qed.

Lemma status_objects_loop_stamped items host d acc :
  host ≠ "" → valid_datetime d = true →
  Forall (λ kv, kv.1 ≠ "" ∧ (kv.2 = "UP" ∨ kv.2 = "DOWN")) items →
  status_objects_loop items host (isoformat d +:+ "Z") acc
  = acc ++ (entry_record host (isoformat d +:+ "Z") <$> items).
Proof.
  intros Hh Hd Hitems. revert acc.
  induction Hitems as [|[name status] items [Hn Hs] _ IH]; intros acc.
  - simpl. by rewrite app_nil_r.
  - simpl in *. rewrite init_stamped by done. rewrite IH.
    by rewrite <-app_assoc.
Qed.

End real_checker.

Section real_report.
Variable self : ServiceChecker.t.

Lemma create_app_object_no_host {parser : IsoParser} status (w : OS) :
  ServiceChecker.hostname self = "" → (status = "UP" ∨ status = "DOWN") →
  create_rbcapp1_status_object (checker := service_checker self) status w
  = (Raise (Exn ValueError "host_name must be a non-empty string"), os_step w).
Proof.
  intros Hh Hs. unfold create_rbcapp1_status_object, bind. simpl.
  rewrite Hh. by rewrite init_no_host.
Qed.

(** With an empty host name the report is not assembled, and the fallback
    is not either. *)
Lemma report_no_host {parser : IsoParser} (w : OS) :
  ServiceChecker.hostname self = "" →
  ∃ w', get_full_monitoring_report (checker := service_checker self) w
        = (Raise (Exn ValueError "host_name must be a non-empty string"), w').
Proof.
  intros Hh. destruct (check_required self w) as (s1 & s2 & s3 & Hrun & _).
  unfold get_full_monitoring_report, try_except.
  rewrite (bind_ok _ _ _ _ _ Hrun).
  pose proof (determine_app_status_cases
                [("httpd", s1); ("rabbitmq", s2); ("postgresql", s3)]) as Hv.
  remember (determine_app_status _) as v eqn:Ev. clear Ev.
  unfold create_service_status_objects at 1.
  unfold bind at 1. unfold bind at 1. simpl.
  unfold bind at 1.
  rewrite create_app_object_no_host by done.
  unfold bind at 1.
  rewrite create_app_object_no_host by (done || by right).
  eauto.
Qed.

(** With a host name and a clock that shows valid dates, the report is
    assembled from three probes and three readings of the clock. *)
Lemma report_with_host (w : OS) :
  ServiceChecker.hostname self ≠ "" →
  (∀ t, valid_datetime (os_utcnow w t) = true) →
  ∃ statuses w',
    let t := os_tick w + 3 in
    let host := ServiceChecker.hostname self in
    get_full_monitoring_report (checker := service_checker self) w
    = (Ok {| Report.service_statuses := statuses;
             Report.app_status := determine_app_status statuses;
             Report.service_objects :=
               entry_record host (stamp w t) <$> statuses;
             Report.app_object :=
               entry_record host (stamp w (t + 1))
                 ("rbcapp1", determine_app_status statuses);
             Report.timestamp := stamp w (t + 2);
             Report.error := None |}, w').
Proof.
  intros Hh Hclock.
  destruct (check_required self w) as (s1 & s2 & s3 & Hrun & Hs1 & Hs2 & Hs3).
  exists [("httpd", s1); ("rabbitmq", s2); ("postgresql", s3)]. eexists.
  unfold get_full_monitoring_report, try_except.
  rewrite (bind_ok _ _ _ _ _ Hrun).
  pose proof (determine_app_status_cases
                [("httpd", s1); ("rabbitmq", s2); ("postgresql", s3)]) as Hv.
  remember (determine_app_status _) as v eqn:Ev. clear Ev.
  unfold create_service_status_objects, create_rbcapp1_status_object.
  unfold bind, ret. simpl.
  replace (os_tick w + 3) with (S (S (S (os_tick w)))) by lia.
  replace (S (S (S (os_tick w))) + 1) with (S (S (S (S (os_tick w))))) by lia.
  replace (S (S (S (os_tick w))) + 2) with (S (S (S (S (S (os_tick w)))))) by lia.
  by rewrite !init_stamped by done.
Qed.

End real_report.

(** ** C4: the fallback of the report *)

(** C4, at the input where it fails.  A [ServiceChecker] whose cached host
    name is the empty string (what [socket.gethostname()] gave) makes
    [get_full_monitoring_report] raise, on every machine: building the
    record of the application raises [ValueError] inside the [try] block,
    and the handler builds the same record again and raises the same
    exception, which leaves the method. *)
Theorem report_raises_without_host_name {parser : IsoParser} (w : OS) :
  ∃ w',
    get_full_monitoring_report
      (checker := service_checker (ServiceChecker.__init__ (Ok ""))) w
    = (Raise (Exn ValueError "host_name must be a non-empty string"), w').
Proof. by apply report_no_host. Qed.

(** ** C5: the records of the report *)

(** The claim as the specification words it fails on a machine whose clock
    advances between two readings: the report is assembled without error,
    yet the timestamp of the application record differs from the timestamp
    of the report. *)
Lemma report_timestamps_differ :
  ¬ (∀ report w',
       get_full_monitoring_report
         (checker := service_checker (ServiceChecker.__init__ (Ok "host-1")))
         (example_os "") = (Ok report, w') →
       Report.error report = None →
       ∀ st, st ∈ Report.app_object report :: Report.service_objects report →
             timestamp st = Report.timestamp report).
Proof.
  intros Hshared.
  pose (r := (get_full_monitoring_report
         (checker := service_checker (ServiceChecker.__init__ (Ok "host-1")))
         (example_os ""))).
  assert (Hr : ∃ report w', r = (Ok report, w')
             ∧ Report.error report = None
             ∧ timestamp (Report.app_object report) ≠ Report.timestamp report).
  { vm_compute. eexists _, _. split; [reflexivity|]. split; [done|]. done. }
  destruct Hr as (report & w' & Hr & Herr & Hne).
  apply Hne, (Hshared report w' Hr Herr). left.
Qed.

(** C5, amended.  When the real checker returns a report without the
    ["error"] key, on a machine whose clock shows valid dates, the report
    holds one record for each entry of its status map, in the order of the
    map and with the name and status of the entry, and one record for
    "rbcapp1" with the verdict.  The records of the dependencies share one
    timestamp, the first reading of the clock; the record of the
    application carries the second reading and the report itself the third,
    so the three are equal only if the clock did not move in between. *)
Theorem report_records (self : ServiceChecker.t) (w w' : OS) (report : Report.t) :
  (∀ t, valid_datetime (os_utcnow w t) = true) →
  get_full_monitoring_report (checker := service_checker self) w
  = (Ok report, w') →
  Report.error report = None →
  let t := os_tick w + 3 in
  let host := ServiceChecker.hostname self in
  Report.service_objects report
  = entry_record host (stamp w t) <$> Report.service_statuses report
  ∧ length (Report.service_objects report)
    = length (Report.service_statuses report)
  ∧ Report.app_object report
    = entry_record host (stamp w (t + 1)) ("rbcapp1", Report.app_status report)
  ∧ Report.timestamp report = stamp w (t + 2).
Proof.
  intros Hclock Hrun _.
  destruct (decide (ServiceChecker.hostname self = "")) as [Hh|Hh].
  - destruct (report_no_host self w Hh) as [w'' Hraise]. congruence.
  - destruct (report_with_host self w Hh Hclock) as (statuses & w'' & Hok).
    simpl in Hok. rewrite Hok in Hrun. injection Hrun as <- _. simpl.
    split_and!; [done| |done|done]. by rewrite length_fmap.
Qed.

Lemma report_records_witness :
  let self := ServiceChecker.__init__ (Ok "host-1") in
  let w := example_os "" in
  let run := get_full_monitoring_report (checker := service_checker self) w in
  (∀ t, valid_datetime (os_utcnow w t) = true)
  ∧ ∃ report, run.1 = Ok report
      ∧ Report.error report = None
      ∧ length (Report.service_objects report) = 3
      ∧ Report.timestamp report = stamp w 5.
Proof.
  intros self w run.
  assert (Hclock : ∀ t, valid_datetime (os_utcnow w t) = true).
  { intros t. unfold valid_datetime. simpl. apply N.leb_le.
    pose proof (N.mod_lt (N.of_nat t) 1000000). lia. }
  split; [exact Hclock|].
  destruct run as [[report|e] w'] eqn:Hrun; [|by vm_compute in Hrun].
  exists report.
  assert (Herr : Report.error report = None).
  { vm_compute in Hrun. by injection Hrun as <- _. }
  destruct (report_records self w w' report Hclock Hrun Herr) as (Hobjs & Hlen & _ & Hts).
  split; [done|]. split; [done|]. split; [|exact Hts].
  rewrite Hlen. vm_compute in Hrun. by injection Hrun as <- _.
Defined.

(** ** C9: file names *)

Lemma str_app_inj_length a a' b b' :
  String.length a = String.length a' →
  a +:+ b = a' +:+ b' → a = a' ∧ b = b'.
Proof.
  revert a'. induction a as [|c a IH]; intros [|c' a'] Hlen Heq;
    simpl in *; try done.
  injection Heq as -> Heq. destruct (IH a') as [-> ->]; [lia|done|done].
Qed.

Lemma str_app_inj_r a b b' : a +:+ b = a +:+ b' → b = b'.
Proof. intros H. by eapply str_app_inj_length. Qed.

Lemma pad_app_inj k m n b b' :
  (m < 10 ^ N.of_nat k)%N → (n < 10 ^ N.of_nat k)%N →
  pad_digits k m +:+ b = pad_digits k n +:+ b' → m = n ∧ b = b'.
Proof.
  intros Hm Hn [Hp ->]%str_app_inj_length; [|by rewrite !pad_digits_length].
  split; [|done]. by eapply pad_digits_inj.
Qed.

Lemma str_cons_inj c a b : String c a = String c b → a = b.
Proof. congruence. Qed.

Lemma pad_sep_inj k m n c b b' :
  (m < 10 ^ N.of_nat k)%N → (n < 10 ^ N.of_nat k)%N →
  pad_digits k m +:+ String c b = pad_digits k n +:+ String c b' →
  m = n ∧ b = b'.
Proof.
  intros Hm Hn [-> Heq]%pad_app_inj; [|done..]. split; congruence.
Qed.

(** The file-safe form of a timestamp printed by [get_current_timestamp]. *)
Lemma safe_stamp d :
  str_replace "." "-" (str_replace ":" "-" (isoformat d +:+ "Z"))
  = pad_digits 4 (year d) +:+ "-" +:+ pad_digits 2 (month d) +:+ "-"
    +:+ pad_digits 2 (day d) +:+ "T" +:+ pad_digits 2 (hour d) +:+ "-"
    +:+ pad_digits 2 (minute d) +:+ "-" +:+ pad_digits 2 (second d)
    +:+ (if (microsecond d =? 0)%N then "Z"
         else "-" +:+ pad_digits 6 (microsecond d) +:+ "Z").
Proof.
  unfold isoformat. rewrite !str_app_assoc.
  repeat (rewrite ?str_replace_app, ?str_replace_pad by (simpl; lia); simpl).
  destruct (microsecond d =? 0)%N; simpl; [done|].
  repeat (rewrite ?str_replace_app, ?str_replace_pad by (simpl; lia); simpl).
  done.
Qed.

(** On timestamps printed by the clock, the file-safe form determines the
    value printed. *)
Lemma safe_stamp_inj d1 d2 rest :
  valid_datetime d1 = true → valid_datetime d2 = true →
  str_replace "." "-" (str_replace ":" "-" (isoformat d1 +:+ "Z")) +:+ rest
  = str_replace "." "-" (str_replace ":" "-" (isoformat d2 +:+ "Z")) +:+ rest →
  d1 = d2.
Proof.
  intros (Hy1&Hm1&Hd1&Hh1&Hmi1&Hs1&Hus1)%valid_datetime_bounds
         (Hy2&Hm2&Hd2&Hh2&Hmi2&Hs2&Hus2)%valid_datetime_bounds.
  rewrite !safe_stamp, !str_app_assoc. simpl.
  intros [Hy H]%pad_sep_inj; [|simpl; lia..].
  apply pad_sep_inj in H as [Hm H]; [|simpl; lia..].
  apply pad_sep_inj in H as [Hd H]; [|simpl; lia..].
  apply pad_sep_inj in H as [Hh H]; [|simpl; lia..].
  apply pad_sep_inj in H as [Hmi H]; [|simpl; lia..].
  rewrite ?str_app_assoc in H.
  apply pad_app_inj in H as [Hs H]; [|simpl; lia..].
  assert (Hus : microsecond d1 = microsecond d2).
  { destruct (N.eqb_spec (microsecond d1) 0) as [E1|E1],
             (N.eqb_spec (microsecond d2) 0) as [E2|E2];
      simpl in H; try congruence.
    rewrite ?str_app_assoc in H. apply str_cons_inj in H.
    by apply pad_app_inj in H as [? _]. }
  destruct d1, d2; simpl in *. congruence.
Qed.

Lemma json_filename_stamp_inj name d1 d2 :
  valid_datetime d1 = true → valid_datetime d2 = true →
  json_filename name (isoformat d1 +:+ "Z")
  = json_filename name (isoformat d2 +:+ "Z") →
  d1 = d2.
Proof.
  intros Hd1 Hd2. unfold json_filename.
  intros H%str_app_inj_r. simpl in H. do 8 apply str_cons_inj in H.
  by eapply safe_stamp_inj.
Qed.

(** The claim as the specification words it fails for two timestamps that
    the record validation accepts and that differ in their seconds: a time
    with seconds and a whole-hour offset, and a time without seconds with an
    offset that has seconds, get the same file name. *)
Lemma filename_collision :
  let t1 := "2024-01-15T10:20:05-01:00" in
  let t2 := "2024-01-15T10:20-05:01:00" in
  ¬ (is_Some (fromisoformat (str_replace "Z" "+00:00" t1)) →
     is_Some (fromisoformat (str_replace "Z" "+00:00" t2)) →
     (λ p, second p.1) <$> fromisoformat t1
     ≠ (λ p, second p.1) <$> fromisoformat t2 →
     json_filename "httpd" t1 ≠ json_filename "httpd" t2).
Proof.
  intros t1 t2 Hclaim. apply Hclaim; [by eexists|by eexists|done|done].
Qed.

(** C9, amended.  For a fixed non-empty name, [generate_json_filename] is
    injective on the timestamps that [get_current_timestamp] prints, that is
    [YYYY-MM-DDTHH:MM:SS] with an optional [.ffffff] and a final "Z": two
    readings of the clock that get the same file name are the same reading,
    so their timestamps are equal.  The file name is the name, "-status-",
    the timestamp with every ':' and '.' replaced by '-', and ".json". *)
Theorem generate_json_filename_injective {W : Type} {checker : Checker W}
    (name : string) (d1 d2 : datetime) (w : W) :
  name ≠ "" →
  valid_datetime d1 = true → valid_datetime d2 = true →
  generate_json_filename name (Some (isoformat d1 +:+ "Z")) w
  = (Ok (name +:+ "-status-"
         +:+ str_replace "." "-" (str_replace ":" "-" (isoformat d1 +:+ "Z"))
         +:+ ".json"), w)
  ∧ (generate_json_filename name (Some (isoformat d1 +:+ "Z")) w
     = generate_json_filename name (Some (isoformat d2 +:+ "Z")) w →
     d1 = d2 ∧ isoformat d1 +:+ "Z" = isoformat d2 +:+ "Z").
Proof.
  intros Hname Hd1 Hd2. unfold generate_json_filename.
  rewrite bool_decide_eq_false_2 by done. unfold bind, ret. split; [done|].
  intros [= Heq]. apply json_filename_stamp_inj in Heq; [|done..].
  by subst.
Qed.

Lemma generate_json_filename_injective_witness :
  let d1 := os_utcnow (example_os "") 1 in
  let d2 := os_utcnow (example_os "") 2 in
  let sc := service_checker (ServiceChecker.__init__ (Ok "host-1")) in
  "httpd" ≠ "" ∧ valid_datetime d1 = true ∧ valid_datetime d2 = true
  ∧ (generate_json_filename "httpd" (Some (isoformat d1 +:+ "Z")) (example_os "")).1
    = Ok "httpd-status-2024-01-15T10-30-00-000001Z.json"
  ∧ generate_json_filename "httpd" (Some (isoformat d1 +:+ "Z")) (example_os "")
    ≠ generate_json_filename "httpd" (Some (isoformat d2 +:+ "Z")) (example_os "").
Proof.
  intros d1 d2 sc. split; [done|]. split; [reflexivity|]. split; [reflexivity|].
  split; [reflexivity|].
  intros Heq.
  destruct (generate_json_filename_injective "httpd" d1 d2 (example_os ""))
    as [_ Hinj]; [done|reflexivity|reflexivity|].
  destruct (Hinj Heq) as [Hd _]. by vm_compute in Hd.
Defined.

(** ** JSON: what [json.dump] writes, [json.loads] reads *)

Lemma hex_val_char n : (n < 16)%N → hex_val (hex_char n) = Some n.
Proof.
  intros Hn. unfold hex_val, hex_char.
  destruct (N.ltb_spec n 10).
  - rewrite N_ascii_embedding by lia.
    rewrite (proj2 (N.leb_le _ _)), (proj2 (N.leb_le _ _)) by lia.
    simpl. f_equal. lia.
  - rewrite N_ascii_embedding by lia.
    rewrite (proj2 (N.leb_gt (87 + n) 57)), andb_false_r by lia.
    rewrite (proj2 (N.leb_le 97 _)), (proj2 (N.leb_le _ 102)) by lia.
    simpl. f_equal. lia.
Qed.

Lemma hex_val_zero : hex_val "0" = Some 0%N.
Proof. reflexivity. Qed.

#[local] Opaque hex_val.

(** Reading the escape of one character gives the character back. *)
Lemma scanstring_escape_char c t :
  scanstring (escape_char c +:+ t)
  = '(s, r) ← scanstring t; Some (String c s, r).
Proof.
  unfold escape_char.
  repeat (case_bool_decide; [subst c; reflexivity|]).
  destruct (N.ltb_spec (N_of_ascii c) 32) as [Hc|Hc].
  - simpl. rewrite !hex_val_zero.
    rewrite !hex_val_char
      by first [apply N.mod_lt; lia | apply N.Div0.div_lt_upper_bound; lia].
    simpl.
    replace (((0 * 16 + 0) * 16 + N_of_ascii c / 16) * 16
             + N_of_ascii c mod 16)%N
      with (N_of_ascii c)
      by (rewrite (N.div_mod' (N_of_ascii c) 16) at 1; lia).
    rewrite (proj2 (N.ltb_lt _ _)) by lia.
    by rewrite ascii_N_embedding.
  - simpl. rewrite !bool_decide_eq_false_2 by done.
    by rewrite (proj2 (N.ltb_ge _ _)) by done.
Qed.

Lemma scanstring_escape v rest :
  scanstring (escape v +:+ String dquote rest) = Some (v, rest).
Proof.
  induction v as [|c v IH]; [done|].
  simpl. rewrite str_app_assoc, scanstring_escape_char, IH. done.
Qed.

Lemma scanstring_encoded v rest :
  ∃ body, py_encode_basestring v +:+ rest = String dquote body
          ∧ scanstring body = Some (v, rest)
          ∧ 0 < String.length body.
Proof.
  exists (escape v +:+ String dquote rest). split_and!.
  - unfold py_encode_basestring. simpl. by rewrite str_app_assoc.
  - apply scanstring_escape.
  - rewrite str_length_app. simpl. lia.
Qed.

(** One member, as [encode_items] prints it, followed by [rest]. *)
Lemma parse_member k v rest :
  ∃ body, py_encode_basestring k +:+ ": " +:+ py_encode_basestring v +:+ rest
          = String dquote body
    ∧ String.length rest < String.length body
    ∧ ∃ body', scanstring body = Some (k, String ":" (String " " (String dquote body')))
        ∧ scanstring body' = Some (v, rest).
Proof.
  destruct (scanstring_encoded k (": " +:+ py_encode_basestring v +:+ rest))
    as (body & Hbody & Hscan & _).
  destruct (scanstring_encoded v rest) as (body' & Hbody' & Hscan' & _).
  exists body. split_and!; [done| |].
  - apply (f_equal String.length) in Hbody.
    rewrite !str_length_app in Hbody. simpl in Hbody. lia.
  - exists body'. split; [|done]. by rewrite Hscan, <-Hbody'.
Qed.

Lemma parse_members_items items :
  items ≠ [] →
  ∃ body, encode_items items = String dquote body
    ∧ length items ≤ String.length body
    ∧ ∀ fuel pairs rest,
        length items ≤ fuel →
        parse_members fuel (body +:+ String newline (String "}" rest)) pairs
        = Some (pairs ++ items, rest).
Proof.
  induction items as [|[k v] items IH]; [done|]. intros _.
  destruct items as [|kv items].
  - destruct (parse_member k v "") as (body & Hbody & Hlen & _).
    exists body. split_and!.
    + simpl. by rewrite <-Hbody, !str_app_nil_r.
    + simpl in *. lia.
    + intros [|fuel] pairs rest Hfuel; [simpl in Hfuel; lia|].
      destruct (parse_member k v (String newline (String "}" rest)))
        as (body1 & Hbody1 & _ & body' & Hk & Hv).
      assert (body +:+ String newline (String "}" rest) = body1) as ->.
      { apply (str_cons_inj dquote). rewrite <-Hbody1.
        change (String dquote (body +:+ ?r)) with (String dquote body +:+ r).
        rewrite <-Hbody. by rewrite !str_app_assoc. }
      simpl. rewrite Hk. simpl. rewrite Hv. done.
  - destruct IH as (body2 & Hbody2 & Hlen2 & Hparse2); [done|].
    set (tail := String "," (String newline "  ") +:+ encode_items (kv :: items)).
    destruct (parse_member k v tail) as (body & Hbody & Hlen & _).
    exists body. split_and!.
    + by rewrite <-Hbody.
    + unfold tail in Hlen. rewrite str_length_app, Hbody2 in Hlen.
      simpl in *. lia.
    + intros [|fuel] pairs rest Hfuel; [simpl in Hfuel; lia|].
      destruct (parse_member k v (tail +:+ String newline (String "}" rest)))
        as (body1 & Hbody1 & _ & body' & Hk & Hv).
      assert (body +:+ String newline (String "}" rest) = body1) as ->.
      { apply (str_cons_inj dquote). rewrite <-Hbody1.
        change (String dquote (body +:+ ?r)) with (String dquote body +:+ r).
        rewrite <-Hbody. by rewrite !str_app_assoc. }
      cbn [parse_members]. rewrite Hk. simpl. rewrite Hv.
      unfold tail. rewrite Hbody2. simpl.
      rewrite Hparse2 by (simpl in *; lia).
      by rewrite <-app_assoc.
Qed.

Lemma dict_set_fresh {V} k (v : V) d :
  k ∉ dict_keys d → dict_set k v d = d ++ [(k, v)].
Proof.
  unfold dict_keys. induction d as [|[k0 v0] d IH]; csimpl; [done|].
  intros [Hne Hk]%not_elem_of_cons.
  rewrite decide_False by done. by rewrite IH.
Qed.

Lemma dict_of_pairs_NoDup (acc items : list (string * string)) :
  NoDup (dict_keys (acc ++ items)) →
  foldl (λ d kv, dict_set kv.1 kv.2 d) acc items = acc ++ items.
Proof.
  revert acc. induction items as [|[k v] items IH]; intros acc Hnd; simpl.
  - by rewrite app_nil_r.
  - rewrite dict_set_fresh.
    + rewrite IH; rewrite <-app_assoc; done.
    + unfold dict_keys in *. rewrite fmap_app in Hnd.
      apply NoDup_app in Hnd as (_ & Hdisj & _).
      intros Hin. apply (Hdisj k Hin). left.
Qed.

(** What [json.dump] writes for a dictionary of strings, [json.loads] reads
    back as the same dictionary. *)
Lemma json_roundtrip (d : pydict string) :
  NoDup (dict_keys d) → json_loads (json_dumps d) = Some d.
Proof.
  intros Hnd. destruct d as [|kv d]; [done|].
  destruct (parse_members_items (kv :: d)) as (body & Hbody & Hlen & Hparse);
    [done|].
  unfold json_dumps. rewrite Hbody. unfold json_loads. simpl.
  rewrite (Hparse _ [] "") by (rewrite str_length_app; lia). simpl.
  f_equal. by apply (dict_of_pairs_NoDup []).
Qed.

(** ** Writing status files *)

Section writes.
Context {W : Type} {checker : Checker W} {fs : FileSystem W}.

(** A write that returns a path made the directory, derived the file name
    from the record and wrote the JSON text of the record to that path. *)
Lemma write_status_file_ok st dir (w w' : W) path :
  write_status_file (PyServiceStatus st) dir w = (Ok path, w') →
  service_name st ≠ ""
  ∧ path = path_join dir (json_filename (service_name st) (timestamp st))
  ∧ ∃ w1, path_mkdir dir w = (Ok tt, w1)
          ∧ write_text path (json_dumps (to_dict st)) w1 = (Ok tt, w').
Proof.
  unfold write_status_file, try_except, bind, generate_json_filename, raise, ret.
  destruct (path_mkdir dir w) as [[[]|e] w1] eqn:Hmk;
    [|by destruct (is_OSError e)].
  case_bool_decide as Hname; [done|]. unfold bind. simpl.
  destruct (write_text _ _ w1) as [[[]|e] w2] eqn:Hwr;
    [|by destruct (is_OSError e)].
  intros [= <- <-]. eauto.
Qed.

(** A value that is not a [ServiceStatus] is rejected before anything is
    touched. *)
Lemma write_status_file_rejects v dir (w : W) :
  (∀ st, v ≠ PyServiceStatus st) →
  write_status_file v dir w
  = (Raise (Exn ValueError "service_status must be a ServiceStatus instance"), w).
Proof. intros Hv. destruct v; try done. by destruct (Hv st). Qed.

Lemma write_loop_step v rest dir acc (w : W) :
  write_loop (v :: rest) dir acc w
  = match write_status_file v dir w with
    | (Ok path, w1) => write_loop rest dir (acc ++ [path]) w1
    | (Raise _, w1) =>
        match getattr_service_name v with
        | Ok _ => write_loop rest dir acc w1
        | Raise e => (Raise e, w1)
        end
    end.
Proof.
  simpl. unfold bind, try_except, ret.
  destruct (write_status_file v dir w) as [[path|e] w1]; [done|].
  by destruct (getattr_service_name v).
Qed.

(** On records the loop never raises, and it collects the paths of the
    writes that succeeded. *)
Lemma write_loop_records records dir acc (w : W) :
  ∃ paths w',
    write_loop (PyServiceStatus <$> records) dir acc w = (Ok (acc ++ paths), w')
    ∧ batch_run dir records w paths w'.
Proof.
  revert acc w. induction records as [|r records IH]; intros acc w.
  - exists [], w. split; [|constructor]. simpl. by rewrite app_nil_r.
  - rewrite fmap_cons, write_loop_step.
    destruct (write_status_file (PyServiceStatus r) dir w) as [[path|e] w1] eqn:Hw.
    + destruct (IH (acc ++ [path]) w1) as (paths & w' & Hrun & Hbatch).
      exists (path :: paths), w'. split; [|by econstructor].
      by rewrite Hrun, <-app_assoc.
    + simpl. destruct (IH acc w1) as (paths & w' & Hrun & Hbatch).
      exists paths, w'. split; [done|]. by eapply batch_failed.
Qed.

(** As long as every element offers a [service_name], the loop does not
    raise. *)
Lemma write_loop_total elems dir acc (w : W) :
  Forall (λ v, ∃ a, getattr_service_name v = Ok a) elems →
  ∃ paths w', write_loop elems dir acc w = (Ok paths, w').
Proof.
  intros Helems. revert acc w.
  induction Helems as [|v elems [a Ha] _ IH]; intros acc w; [by eexists _, _|].
  rewrite write_loop_step, Ha.
  destruct (write_status_file v dir w) as [[path|e] w1]; apply IH.
Qed.

(** The loop stops at the first element that is no record and offers no
    [service_name]. *)
Lemma write_loop_raises pre x post dir acc e (w : W) :
  Forall (λ v, ∃ a, getattr_service_name v = Ok a) pre →
  getattr_service_name x = Raise e →
  ∃ paths w1,
    write_loop pre dir acc w = (Ok paths, w1)
    ∧ write_loop (pre ++ x :: post) dir acc w = (Raise e, w1).
Proof.
  intros Hpre Hx. revert acc w.
  induction Hpre as [|v pre [a Ha] _ IH]; intros acc w.
  - exists acc, w. split; [done|]. simpl app. rewrite write_loop_step, Hx.
    rewrite write_status_file_rejects; [done|].
    intros st ->. done.
  - simpl app. rewrite !write_loop_step, Ha.
    destruct (write_status_file v dir w) as [[path|e'] w1]; apply IH.
Qed.

(** ** C7: the batch of writes *)

(** C7.  Given a list of [ServiceStatus] records,
    [write_multiple_status_files] never raises: every record is attempted,
    in the order of the list and in the state the earlier attempts left, and
    the result lists the paths of exactly the attempts that succeeded, in
    that order.  In particular, when of three records the first and the
    third are written and the write of the second raises (a permission
    error, say), the result is the list of the first and the third path. *)
Theorem write_multiple_status_files_spec (records : list ServiceStatus)
    (output_dir : string) (w : W) :
  ∃ paths w',
    write_multiple_status_files (PyServiceStatus <$> records) output_dir w
    = (Ok paths, w')
    ∧ batch_run output_dir records w paths w'
    ∧ ∀ r1 r2 r3 p1 p3 e w1 w2 w3,
        records = [r1; r2; r3] →
        write_status_file (PyServiceStatus r1) output_dir w = (Ok p1, w1) →
        write_status_file (PyServiceStatus r2) output_dir w1 = (Raise e, w2) →
        write_status_file (PyServiceStatus r3) output_dir w2 = (Ok p3, w3) →
        paths = [p1; p3] ∧ w' = w3.
Proof.
  destruct (write_loop_records records output_dir [] w)
    as (paths & w' & Hrun & Hbatch).
  exists paths, w'. split_and!; [done|done|].
  intros r1 r2 r3 p1 p3 e w1 w2 w3 -> H1 H2 H3.
  unfold write_multiple_status_files in Hrun. rewrite !fmap_cons in Hrun.
  rewrite write_loop_step, H1 in Hrun. cbv beta iota in Hrun.
  rewrite write_loop_step, H2 in Hrun. cbn [getattr_service_name] in Hrun.
  rewrite write_loop_step, H3 in Hrun. simpl in Hrun.
  by injection Hrun as <- <-.
Qed.

(** ** C8: write, then read *)

(** C8.  When [write_status_file] returns a path, on a file system where a
    written file holds what was written, the file at that path parses as
    JSON to an object with exactly the keys [service_name],
    [service_status], [host_name] and [timestamp], in this order, whose
    values are the four fields of the record. *)
Theorem write_then_read (st : ServiceStatus) (output_dir path : string)
    (w w' : W) :
  read_after_write W →
  write_status_file (PyServiceStatus st) output_dir w = (Ok path, w') →
  ∃ text obj,
    read_text path w' = Some text
    ∧ json_loads text = Some obj
    ∧ dict_keys obj
      = ["service_name"; "service_status"; "host_name"; "timestamp"]
    ∧ dict_get "service_name" obj = Some (service_name st)
    ∧ dict_get "service_status" obj = Some (service_status st)
    ∧ dict_get "host_name" obj = Some (host_name st)
    ∧ dict_get "timestamp" obj = Some (timestamp st).
Proof.
  intros Hfs (_ & _ & w1 & _ & Hwrite)%write_status_file_ok.
  exists (json_dumps (to_dict st)), (to_dict st). split_and!; try done.
  - by eapply Hfs.
  - apply json_roundtrip. apply (bool_decide_unpack _). by vm_compute.
Qed.

(** ** C10: elements that are no records *)

(** C10, amended.  When an element of the list is not a [ServiceStatus] and
    has no [service_name] attribute, and every element before it is a
    [ServiceStatus] or at least has that attribute,
    [write_multiple_status_files] raises [AttributeError]: [write_status_file]
    rejects the element with [ValueError] without touching anything, the
    handler fails to read [service_name], and the elements after it are
    never attempted (the world is the one the elements before it left).
    An element that is not a [ServiceStatus] but does have a [service_name]
    attribute is skipped like a failed write. *)
Theorem write_multiple_status_files_raises (pre post : list pyval) (x : pyval)
    (output_dir : string) (e : exn) (w : W) :
  Forall (λ v, ∃ a, getattr_service_name v = Ok a) pre →
  getattr_service_name x = Raise e →
  (∀ st, x ≠ PyServiceStatus st)
  ∧ exn_cls e = AttributeError
  ∧ (∃ paths w1,
       write_multiple_status_files pre output_dir w = (Ok paths, w1)
       ∧ write_status_file x output_dir w1
         = (Raise (Exn ValueError
                     "service_status must be a ServiceStatus instance"), w1)
       ∧ write_multiple_status_files (pre ++ x :: post) output_dir w
         = (Raise e, w1))
  ∧ (∀ y a rest, (∀ st, y ≠ PyServiceStatus st) →
       getattr_service_name y = Ok a →
       write_multiple_status_files (y :: rest) output_dir w
       = write_multiple_status_files rest output_dir w).
Proof.
  intros Hpre Hx.
  assert (Hnot : ∀ st, x ≠ PyServiceStatus st) by (by intros st ->).
  split_and!; [done| | |].
  - destruct x as [| | |st|attrs]; simpl in Hx; try done;
      try by injection Hx as <-.
    destruct (dict_get _ attrs); [done|]. by injection Hx as <-.
  - destruct (write_loop_raises pre x post output_dir [] e w Hpre Hx)
      as (paths & w1 & Hrun & Hraise).
    exists paths, w1. split_and!; [done| |done].
    by apply write_status_file_rejects.
  - intros y a rest Hy Ha. unfold write_multiple_status_files.
    by rewrite write_loop_step, write_status_file_rejects, Ha.
Qed.

End writes.

Lemma os_read_after_write : read_after_write OS.
Proof.
  intros path text w w'. simpl. unfold os_file_op.
  destruct (os_fault w (os_tick w) path); [done|].
  intros [= <-]. simpl. rewrite dict_get_set. by rewrite decide_True.
Qed.

Lemma write_multiple_status_files_spec_witness :
  let sc := service_checker (ServiceChecker.__init__ (Ok "host-1")) in
  let w := example_os "data/rabbitmq-status-2024-01-15T10-30-00Z.json" in
  example_records
  = [example_record "httpd" "UP"; example_record "rabbitmq" "DOWN";
     example_record "postgresql" "UP"]
  ∧ (write_status_file (PyServiceStatus (example_record "rabbitmq" "DOWN"))
       "data" (os_step (os_step w))).1
    = Raise (Exn OSError
               "Cannot write status file: [Errno 13] Permission denied")
  ∧ (write_multiple_status_files (PyServiceStatus <$> example_records) "data" w).1
    = Ok ["data/httpd-status-2024-01-15T10-30-00Z.json";
          "data/postgresql-status-2024-01-15T10-30-00Z.json"].
Proof.
  intros sc w. split; [reflexivity|]. split; [reflexivity|].
  destruct (write_multiple_status_files_spec example_records "data" w)
    as (paths & w' & Hrun & _ & Hscenario).
  rewrite Hrun. simpl. f_equal.
  eapply Hscenario; [reflexivity|reflexivity|reflexivity|reflexivity].
Defined.

Lemma write_then_read_witness :
  let sc := service_checker (ServiceChecker.__init__ (Ok "host-1")) in
  let st := example_record "httpd" "UP" in
  let run := write_status_file (PyServiceStatus st) "data" (example_os "") in
  read_after_write OS
  ∧ run.1 = Ok "data/httpd-status-2024-01-15T10-30-00Z.json"
  ∧ ∃ text obj,
      read_text "data/httpd-status-2024-01-15T10-30-00Z.json" run.2 = Some text
      ∧ json_loads text = Some obj
      ∧ dict_get "timestamp" obj = Some "2024-01-15T10:30:00Z".
Proof.
  intros sc st run. split; [exact os_read_after_write|].
  split; [reflexivity|].
  destruct (write_then_read st "data"
              "data/httpd-status-2024-01-15T10-30-00Z.json"
              (example_os "") run.2 os_read_after_write)
    as (text & obj & Hread & Hloads & _ & _ & _ & _ & Hts); [reflexivity|].
  by exists text, obj.
Defined.

(** The claim as the specification words it fails for an element that is no
    [ServiceStatus] but has a [service_name] attribute: the batch call
    returns, with that element skipped. *)
Lemma duck_typed_element_skipped :
  let sc := service_checker (ServiceChecker.__init__ (Ok "host-1")) in
  let elems := [PyObject [("service_name", PyStr "httpd")]] in
  ¬ ((∃ x, x ∈ elems ∧ ∀ st, x ≠ PyServiceStatus st) →
     ∃ e w', write_multiple_status_files elems "data" (example_os "")
             = (Raise e, w')).
Proof.
  intros sc elems Hclaim. destruct Hclaim as (e & w' & Hraise).
  - exists (PyObject [("service_name", PyStr "httpd")]). split; [left|done].
  - by vm_compute in Hraise.
Qed.

Lemma write_multiple_status_files_raises_witness :
  let sc := service_checker (ServiceChecker.__init__ (Ok "host-1")) in
  let pre := [PyServiceStatus (example_record "httpd" "UP")] in
  let post := [PyServiceStatus (example_record "postgresql" "UP")] in
  let e := Exn AttributeError "object has no attribute 'service_name'" in
  Forall (λ v, ∃ a, getattr_service_name v = Ok a) pre
  ∧ getattr_service_name PyNone = Raise e
  ∧ (write_multiple_status_files (pre ++ PyNone :: post) "data" (example_os "")).1
    = Raise e.
Proof.
  intros sc pre post e.
  assert (Hpre : Forall (λ v, ∃ a, getattr_service_name v = Ok a) pre)
    by (repeat constructor; by eexists).
  split; [exact Hpre|]. split; [reflexivity|].
  destruct (write_multiple_status_files_raises pre post PyNone "data" e
              (example_os "") Hpre eq_refl)
    as (_ & _ & (paths & w1 & _ & _ & Hraise) & _).
  by rewrite Hraise.
Defined.

(** * Further properties of the monitor *)

(** ** Building records from a status map *)

Lemma init_entry {parser : IsoParser} host ts name status :
  (entry_valid (name, status) ∧ stamp_valid host ts
   ∧ ServiceStatus_init (PyStr name) (PyStr status) (PyStr host) (PyStr ts)
     = Ok (entry_record host ts (name, status)))
  ∨ (¬ (entry_valid (name, status) ∧ stamp_valid host ts)
     ∧ ∃ e, ServiceStatus_init (PyStr name) (PyStr status) (PyStr host)
              (PyStr ts) = Raise e).
Proof.
  unfold ServiceStatus_init.
  destruct (decide (entry_valid (name, status) ∧ stamp_valid host ts))
    as [[[Hn Hs] (Hh & Ht & Hp)]|Hno].
  - left. split_and!; try done. by rewrite validate_ok.
  - right. split; [done|].
    destruct (_validate _ _ _ _) as [[]|e] eqn:Hv; [|by eexists].
    apply validate_ok_inv in Hv
      as (n' & s' & h' & t' & [= <-] & [= <-] & [= <-] & [= <-] & ? & ? & ? & ? & ?).
    destruct Hno. by repeat split.
Qed.

Lemma status_objects_loop_filter {parser : IsoParser} items host ts acc :
  status_objects_loop items host ts acc
  = acc ++ if decide (stamp_valid host ts)
           then entry_record host ts <$> filter entry_valid items
           else [].
Proof.
  revert acc. induction items as [|[name status] items IH]; intros acc.
  - simpl. destruct (decide _); by rewrite app_nil_r.
  - cbn [status_objects_loop].
    destruct (init_entry host ts name status)
      as [(Hkv & Hst & ->)|(Hno & e & ->)]; rewrite IH.
    + rewrite filter_cons_True by done.
      repeat case_decide; try done. by rewrite fmap_cons, <-app_assoc.
    + repeat case_decide; try done.
      rewrite filter_cons_False; [done|]. intros Hkv. by destruct Hno.
Qed.

Section monitor_props.
Context {parser : IsoParser} {W : Type} {checker : Checker W}.

(** X2.  Whatever [datetime.fromisoformat] of the interpreter in use accepts:
    [create_service_status_objects] asks for the host name, then for the
    timestamp, and builds one record for every entry of the map whose name
    is non-empty and whose status is "UP" or "DOWN", in the order of the map
    and all with that host and timestamp (entries that give no valid record
    are dropped); when the host name or the timestamp is empty, or the
    timestamp, with every "Z" replaced by "+00:00", is not accepted by that
    parser, the list is empty.  It raises only when [get_hostname] or
    [get_current_timestamp] raises. *)
Theorem create_service_status_objects_spec (service_statuses : pydict string)
    (w : W) :
  (∀ host w1 ts w2,
     sc_get_hostname w = (Ok host, w1) →
     sc_get_current_timestamp w1 = (Ok ts, w2) →
     create_service_status_objects service_statuses w
     = (Ok (if decide (stamp_valid host ts)
            then entry_record host ts <$> filter entry_valid service_statuses
            else []), w2))
  ∧ (∀ e w1, sc_get_hostname w = (Raise e, w1) →
       create_service_status_objects service_statuses w = (Raise e, w1))
  ∧ (∀ host w1 e w2,
       sc_get_hostname w = (Ok host, w1) →
       sc_get_current_timestamp w1 = (Raise e, w2) →
       create_service_status_objects service_statuses w = (Raise e, w2)).
Proof.
  unfold create_service_status_objects, bind, ret. split_and!.
  - intros host w1 ts w2 -> ->. by rewrite status_objects_loop_filter.
  - by intros e w1 ->.
  - by intros host w1 e w2 -> ->.
Qed.

Lemma check_required_outcomes (w : W) :
  check_service_statuses None w
  = (Ok [("httpd", probe_outcome "httpd" w);
         ("rabbitmq", probe_outcome "rabbitmq" (world_after ["httpd"] w));
         ("postgresql",
          probe_outcome "postgresql" (world_after ["httpd"; "rabbitmq"] w))],
     world_after REQUIRED_SERVICES w).
Proof.
  change (check_service_statuses None w)
    with (check_loop ["httpd"; "rabbitmq"; "postgresql"] [] w).
  rewrite !check_loop_step. done.
Qed.

(** X1.  [get_rbcapp1_status] never raises, whatever the checker does: it
    probes "httpd", "rabbitmq" and "postgresql" in this order and answers
    "UP" exactly when each of the three probes answered "UP" (a probe that
    raises counts as "DOWN"), and "DOWN" otherwise. *)
Theorem get_rbcapp1_status_spec (w : W) :
  ∃ status,
    get_rbcapp1_status w = (Ok status, world_after REQUIRED_SERVICES w)
    ∧ (status = "UP" ∨ status = "DOWN")
    ∧ (status = "UP"
       ↔ probe_outcome "httpd" w = "UP"
         ∧ probe_outcome "rabbitmq" (world_after ["httpd"] w) = "UP"
         ∧ probe_outcome "postgresql" (world_after ["httpd"; "rabbitmq"] w)
           = "UP").
Proof.
  unfold get_rbcapp1_status, try_except, bind, ret.
  rewrite check_required_outcomes.
  eexists. split; [reflexivity|]. split; [apply determine_app_status_cases|].
  unfold determine_app_status. rewrite required_up_iff.
  unfold REQUIRED_SERVICES. rewrite !Forall_cons, Forall_nil. simpl.
  split.
  - intros ([= ->] & [= ->] & [= ->] & _). done.
  - intros (-> & -> & ->). done.
Qed.

Lemma init_rbcapp1_inv status host ts st :
  ServiceStatus_init (PyStr "rbcapp1") (PyStr status) (PyStr host) (PyStr ts)
  = Ok st →
  st = entry_record host ts ("rbcapp1", status)
  ∧ (status = "UP" ∨ status = "DOWN").
Proof.
  destruct (init_entry host ts "rbcapp1" status)
    as [([_ Hs] & _ & ->)|(_ & e & ->)]; [|done]. by intros [= <-].
Qed.

Lemma create_rbcapp1_inv status (w w' : W) st :
  create_rbcapp1_status_object status w = (Ok st, w') →
  service_name st = "rbcapp1" ∧ service_status st = status
  ∧ (status = "UP" ∨ status = "DOWN").
Proof.
  unfold create_rbcapp1_status_object, bind.
  destruct (sc_get_hostname w) as [[host|e] w1]; [|done].
  destruct (sc_get_current_timestamp w1) as [[ts|e] w2]; [|done].
  destruct (ServiceStatus_init _ _ _ _) as [st'|e] eqn:Hinit; [|done].
  intros [= <- <-]. by apply init_rbcapp1_inv in Hinit as [-> ?].
Qed.

Lemma create_objects_inv statuses (w w' : W) objs :
  create_service_status_objects statuses w = (Ok objs, w') →
  ∃ host ts, objs = entry_record host ts <$> filter entry_valid statuses
             ∨ objs = [].
Proof.
  unfold create_service_status_objects, bind, ret.
  destruct (sc_get_hostname w) as [[host|e] w1]; [|done].
  destruct (sc_get_current_timestamp w1) as [[ts|e] w2]; [|done].
  intros [= <- <-]. exists host, ts. rewrite status_objects_loop_filter.
  destruct (decide _); [by left|by right].
Qed.

(** X3.  Whatever the checker does, a report that
    [get_full_monitoring_report] returns has one of two shapes.  Without the
    key ["error"]: the status map has the keys "httpd", "rabbitmq",
    "postgresql" in this order, the verdict is [determine_app_status] of
    that map, and each dependency record carries the name and status of an
    entry of the map.  With the key ["error"] (the fallback): the status map
    and the list of dependency records are empty and the verdict is "DOWN".
    In both, the application record is named "rbcapp1" and its status is the
    verdict of the report. *)
Theorem report_shape (w w' : W) (report : Report.t) :
  get_full_monitoring_report w = (Ok report, w') →
  service_name (Report.app_object report) = "rbcapp1"
  ∧ service_status (Report.app_object report) = Report.app_status report
  ∧ match Report.error report with
    | None =>
        dict_keys (Report.service_statuses report) = REQUIRED_SERVICES
        ∧ Report.app_status report
          = determine_app_status (Report.service_statuses report)
        ∧ ∀ st, st ∈ Report.service_objects report →
                (service_name st, service_status st)
                ∈ Report.service_statuses report
    | Some _ =>
        Report.service_statuses report = []
        ∧ Report.app_status report = "DOWN"
        ∧ Report.service_objects report = []
    end.
Proof.
  unfold get_full_monitoring_report, try_except.
  rewrite (bind_ok _ _ _ _ _ (check_required_outcomes w)).
  set (m := [("httpd", _); ("rabbitmq", _); ("postgresql", _)]).
  set (w1 := world_after REQUIRED_SERVICES w).
  assert (Hfallback : ∀ e w2,
    (let* app_object := create_rbcapp1_status_object "DOWN" in
     let* timestamp := sc_get_current_timestamp in
     ret {| Report.service_statuses := [];
            Report.app_status := "DOWN";
            Report.service_objects := [];
            Report.app_object := app_object;
            Report.timestamp := timestamp;
            Report.error := Some (exn_str e) |}) w2 = (Ok report, w') →
    service_name (Report.app_object report) = "rbcapp1"
    ∧ service_status (Report.app_object report) = Report.app_status report
    ∧ match Report.error report with
      | None => False
      | Some _ =>
          Report.service_statuses report = []
          ∧ Report.app_status report = "DOWN"
          ∧ Report.service_objects report = []
      end).
  { intros e w2. unfold bind, ret.
    destruct (create_rbcapp1_status_object "DOWN" w2) as [[st|e1] w3] eqn:Happ;
      [|done].
    destruct (sc_get_current_timestamp w3) as [[ts|e2] w4]; [|done].
    intros [= <- <-]. simpl.
    by apply create_rbcapp1_inv in Happ as (-> & -> & _). }
  unfold bind at 1.
  destruct (create_service_status_objects m w1) as [[objs|e] w2] eqn:Hobjs.
  - unfold bind at 1.
    destruct (create_rbcapp1_status_object _ w2) as [[st|e] w3] eqn:Happ.
    + unfold bind at 1, ret.
      destruct (sc_get_current_timestamp w3) as [[ts|e] w4].
      * intros [= <- <-]. simpl.
        apply create_rbcapp1_inv in Happ as (-> & -> & _).
        split_and!; [done..|].
        intros st' Hst'.
        apply create_objects_inv in Hobjs as (host & ts' & [->| ->]);
          [|by apply elem_of_nil in Hst'].
        apply list_elem_of_fmap in Hst' as ([k v] & -> & Hkv).
        by apply list_elem_of_filter in Hkv as [_ Hkv].
      * intros H. destruct (Hfallback _ _ H) as (? & ? & Herr).
        split_and!; [done..|]. by destruct (Report.error report).
    + intros H. destruct (Hfallback _ _ H) as (? & ? & Herr).
      split_and!; [done..|]. by destruct (Report.error report).
  - intros H. destruct (Hfallback _ _ H) as (? & ? & Herr).
    split_and!; [done..|]. by destruct (Report.error report).
Qed.

End monitor_props.

Lemma create_service_status_objects_spec_witness :
  let sc := service_checker (ServiceChecker.__init__ (Ok "host-1")) in
  let w := example_os "" in
  let m := [("httpd", "UP"); ("", "UP"); ("cron", "MAYBE"); ("rabbitmq", "DOWN")] in
  sc_get_hostname w = (Ok "host-1", w)
  ∧ sc_get_current_timestamp w = (Ok (stamp w 0), os_step w)
  ∧ create_service_status_objects m w
    = (Ok [entry_record "host-1" (stamp w 0) ("httpd", "UP");
           entry_record "host-1" (stamp w 0) ("rabbitmq", "DOWN")], os_step w).
Proof.
  intros sc w m.
  assert (Hhost : sc_get_hostname w = (Ok "host-1", w)) by reflexivity.
  assert (Hts : sc_get_current_timestamp w = (Ok (stamp w 0), os_step w))
    by reflexivity.
  split; [exact Hhost|]. split; [exact Hts|].
  rewrite (proj1 (create_service_status_objects_spec (checker := sc) m w)
             "host-1" w (stamp w 0) (os_step w) Hhost Hts).
  reflexivity.
Defined.

Lemma report_shape_witness :
  let sc := service_checker (ServiceChecker.__init__ (Ok "host-1")) in
  let run := get_full_monitoring_report (checker := sc) (example_os "") in
  ∃ report, run.1 = Ok report
    ∧ Report.app_status report = "DOWN"
    ∧ service_status (Report.app_object report) = "DOWN".
Proof.
  intros sc run.
  destruct run as [[report|e] w'] eqn:Hrun; [|by vm_compute in Hrun].
  exists report. split; [done|].
  destruct (report_shape (checker := sc) _ _ _ Hrun) as (_ & Hstatus & _).
  assert (Hdown : Report.app_status report = "DOWN").
  { vm_compute in Hrun. by injection Hrun as <- _. }
  split; [done|]. by rewrite Hstatus.
Defined.

(** ** The real checker *)

Lemma os_step_iter_tick k w : os_tick (Nat.iter k os_step w) = k + os_tick w.
Proof. induction k as [|k IH]; simpl; [done|by rewrite IH]. Qed.

Lemma world_after_real self names (w : OS) :
  world_after (checker := service_checker self) names w
  = Nat.iter (length (filter (λ name, name ≠ "") names)) os_step w.
Proof.
  revert w. induction names as [|name names IH]; intros w; [done|].
  cbn [world_after]. rewrite IH.
  destruct (decide (name = "")) as [->|Hne].
  - by rewrite filter_cons_False by (by intros ?).
  - rewrite filter_cons_True by done.
    destruct (check_service_status_run name w Hne) as (s & Hs & _).
    simpl sc_check_service_status. rewrite Hs. simpl.
    generalize (length (filter (λ name0 : string, name0 ≠ "") names)).
    intros k. induction k as [|k IHk]; simpl; [done|by rewrite IHk].
Qed.

(** X4.  With the real [ServiceChecker], [check_service_statuses] starts
    [systemctl] once for every non-empty name of the list, duplicates
    included, and not at all for an empty name (whose entry is "DOWN"); it
    touches nothing else: the world it leaves is the one it found, advanced
    by as many steps as there are non-empty names. *)
Theorem check_service_statuses_invocations (self : ServiceChecker.t)
    (names : list string) (w : OS) :
  names ≠ [] →
  ∃ m,
    check_service_statuses (checker := service_checker self) (Some names) w
    = (Ok m, Nat.iter (length (filter (λ name, name ≠ "") names)) os_step w)
    ∧ ("" ∈ names → dict_get "" m = Some "DOWN").
Proof.
  intros Hne.
  destruct (check_loop_spec (checker := service_checker self) names [] w)
    as (m & Hrun & _ & _ & _ & Hlast).
  exists m. split.
  - unfold check_service_statuses. simpl default.
    rewrite <-(world_after_real self). by destruct names.
  - intros (l1 & l2 & -> & Hnotin)%list_elem_of_split_r.
    by rewrite (Hlast l1 "" l2 eq_refl Hnotin).
Qed.

Lemma check_service_statuses_invocations_witness :
  ["httpd"; ""; "httpd"] ≠ []
  ∧ (check_service_statuses
       (checker := service_checker (ServiceChecker.__init__ (Ok "host-1")))
       (Some ["httpd"; ""; "httpd"]) (example_os ""))
    = (Ok [("httpd", "UP"); ("", "DOWN")], os_step (os_step (example_os ""))).
Proof.
  split; [done|].
  destruct (check_service_statuses_invocations
              (ServiceChecker.__init__ (Ok "host-1")) ["httpd"; ""; "httpd"]
              (example_os "")) as (m & Hrun & _); [done|].
  rewrite Hrun. f_equal. f_equal.
  assert (H := f_equal fst Hrun). vm_compute in H. by injection H as <-.
Defined.

(** X5.  A timestamp of [get_current_timestamp], taken while the clock shows
    a valid date, has 20 characters, or 27 when the microseconds are not
    zero, ends in "Z", and passes the timestamp check of [ServiceStatus]:
    with "Z" replaced by "+00:00" it parses back to the clock reading at
    UTC offset zero. *)
Theorem get_current_timestamp_spec (w : OS) :
  valid_datetime (os_utcnow w (os_tick w)) = true →
  ∃ ts body,
    ServiceChecker.get_current_timestamp w = (Ok ts, os_step w)
    ∧ ts = body +:+ "Z"
    ∧ String.length ts
      = (if (microsecond (os_utcnow w (os_tick w)) =? 0)%N then 20 else 27)
    ∧ fromisoformat (str_replace "Z" "+00:00" ts)
      = Some (os_utcnow w (os_tick w), Some 0%Z)
    ∧ ∀ name status host,
        name ≠ "" → (status = "UP" ∨ status = "DOWN") → host ≠ "" →
        ServiceStatus_init (PyStr name) (PyStr status) (PyStr host) (PyStr ts)
        = Ok {| service_name := name; service_status := status;
                host_name := host; timestamp := ts |}.
Proof.
  intros Hv. set (d := os_utcnow w (os_tick w)) in *.
  exists (isoformat d +:+ "Z"), (isoformat d). split_and!; [done|done| | |].
  - rewrite isoformat_parts, !str_length_app, iso_date_length.
    unfold iso_time, iso_fraction. simpl.
    rewrite !str_length_app, !pad_digits_length.
    destruct (microsecond d =? 0)%N; simpl; [done|].
    by rewrite pad_digits_length.
  - by rewrite str_replace_Z_isoformat, fromisoformat_isoformat.
  - intros name status host ???. by apply init_stamped.
Qed.

Lemma get_current_timestamp_spec_witness :
  valid_datetime (os_utcnow (example_os "") 0) = true
  ∧ ServiceChecker.get_current_timestamp (example_os "")
    = (Ok "2024-01-15T10:30:00Z", os_step (example_os ""))
  ∧ fromisoformat (str_replace "Z" "+00:00" "2024-01-15T10:30:00Z")
    = Some (os_utcnow (example_os "") 0, Some 0%Z).
Proof.
  split; [reflexivity|]. split; [reflexivity|].
  destruct (get_current_timestamp_spec (example_os "") eq_refl)
    as (ts & body & Hrun & _ & _ & Hparse & _).
  injection Hrun as <-. exact Hparse.
Defined.

(** X6.  With the real [ServiceChecker] and a clock that shows valid dates,
    the fallback report is never produced: [get_full_monitoring_report]
    returns a report exactly when the cached host name is non-empty, that
    report has no ["error"] key, and all its records carry the cached host
    name; when [socket.gethostname()] failed at construction, that name is
    "unknown-host". *)
Theorem real_report_never_degraded (gethostname : result string) (w : OS) :
  (∀ t, valid_datetime (os_utcnow w t) = true) →
  let self := ServiceChecker.__init__ gethostname in
  let run := get_full_monitoring_report (checker := service_checker self) w in
  ((∃ report w', run = (Ok report, w')) ↔ ServiceChecker.hostname self ≠ "")
  ∧ (∀ report w', run = (Ok report, w') →
       Report.error report = None
       ∧ Forall (λ st, host_name st = ServiceChecker.hostname self)
           (Report.app_object report :: Report.service_objects report))
  ∧ (∀ e, gethostname = Raise e →
       ServiceChecker.hostname self = "unknown-host"
       ∧ ∃ report w', run = (Ok report, w')).
Proof.
  intros Hclock self run.
  assert (Hok : ServiceChecker.hostname self ≠ "" →
    ∃ report w', run = (Ok report, w')
      ∧ Report.error report = None
      ∧ Forall (λ st, host_name st = ServiceChecker.hostname self)
          (Report.app_object report :: Report.service_objects report)).
  { intros Hh.
    destruct (report_with_host self w Hh Hclock) as (statuses & w' & Hrun).
    simpl in Hrun. eexists _, _. split; [exact Hrun|]. simpl.
    split; [done|]. constructor; [done|].
    apply Forall_fmap, Forall_true. done. }
  split_and!.
  - split.
    + intros (report & w' & Hrun) Hh.
      destruct (report_no_host self w Hh) as [w'' Hraise].
      unfold run in Hrun. congruence.
    + intros Hh. destruct (Hok Hh) as (report & w' & ? & _). eauto.
  - intros report w' Hrun.
    destruct (decide (ServiceChecker.hostname self = "")) as [Hh|Hh].
    + destruct (report_no_host self w Hh) as [w'' Hraise].
      unfold run in Hrun. congruence.
    + destruct (Hok Hh) as (report' & w'' & Hrun' & ? & ?).
      rewrite Hrun in Hrun'. by injection Hrun' as <- <-.
  - intros e ->. split; [done|].
    destruct Hok as (report & w' & ? & _); [done|]. eauto.
Qed.

Lemma real_report_never_degraded_witness :
  let w := example_os "" in
  (∀ t, valid_datetime (os_utcnow w t) = true)
  ∧ ∃ report w',
      get_full_monitoring_report
        (checker := service_checker
                      (ServiceChecker.__init__
                         (Raise (Exn RuntimeError "no host name")))) w
      = (Ok report, w')
      ∧ Report.error report = None
      ∧ host_name (Report.app_object report) = "unknown-host".
Proof.
  intros w.
  assert (Hclock : ∀ t, valid_datetime (os_utcnow w t) = true).
  { intros t. unfold valid_datetime. simpl. apply N.leb_le.
    pose proof (N.mod_lt (N.of_nat t) 1000000). lia. }
  split; [exact Hclock|].
  destruct (real_report_never_degraded
              (Raise (Exn RuntimeError "no host name")) w Hclock)
    as (_ & Hshape & Hfallback).
  destruct (Hfallback _ eq_refl) as (_ & report & w' & Hrun).
  exists report, w'. split; [exact Hrun|].
  destruct (Hshape report w' Hrun) as [Herr Hhost].
  split; [done|]. by apply Forall_cons in Hhost as [-> _].
Defined.

(** ** File names and files *)

Lemma str_replace_char_length c c' s :
  String.length (str_replace c (String c' "") s) = String.length s.
Proof.
  induction s as [|a s IH]; simpl; [done|].
  destruct (decide (a = c)); simpl; by rewrite IH.
Qed.

Lemma str_replace_char_contains c c' x s :
  x ≠ c' →
  str_contains x (str_replace c (String c' "") s)
  = if bool_decide (x = c) then false else str_contains x s.
Proof.
  intros Hx. induction s as [|a s IH]; simpl; [by case_bool_decide|].
  destruct (decide (a = c)) as [->|Hne]; simpl; rewrite IH.
  - rewrite (bool_decide_eq_false_2 (c' = x)) by done. simpl.
    case_bool_decide as Hxc; [done|].
    by rewrite (bool_decide_eq_false_2 (c = x)) by done.
  - case_bool_decide as Hxc; [|done]. subst x.
    by rewrite (bool_decide_eq_false_2 (a = c)) by done.
Qed.

Section file_props.
Context {W : Type} {checker : Checker W} {fs : FileSystem W}.

(** X7.  [generate_json_filename] rejects the empty name with [ValueError]
    before it looks at the timestamp (the clock is not read).  For a
    non-empty name, a missing timestamp is replaced by
    [get_current_timestamp()], and the file name is the name, "-status-", a
    safe form of the timestamp and ".json", where the safe form has the
    length of the timestamp and contains neither ':' nor '.'. *)
Theorem generate_json_filename_spec (service_name : string)
    (timestamp : option string) (w : W) :
  (service_name = "" →
   generate_json_filename service_name timestamp w
   = (Raise (Exn ValueError "service_name must be a non-empty string"), w))
  ∧ (service_name ≠ "" →
     generate_json_filename service_name None w
     = match sc_get_current_timestamp w with
       | (Ok ts, w') => generate_json_filename service_name (Some ts) w'
       | (Raise e, w') => (Raise e, w')
       end)
  ∧ (service_name ≠ "" →
     ∀ ts, ∃ safe,
       generate_json_filename service_name (Some ts) w
       = (Ok (service_name +:+ "-status-" +:+ safe +:+ ".json"), w)
       ∧ String.length safe = String.length ts
       ∧ str_contains ":" safe = false ∧ str_contains "." safe = false).
Proof.
  unfold generate_json_filename. split_and!.
  - intros ->. done.
  - intros Hne. rewrite bool_decide_eq_false_2 by done. unfold bind, ret.
    by destruct (sc_get_current_timestamp w) as [[ts|e] w'].
  - intros Hne ts. rewrite bool_decide_eq_false_2 by done.
    exists (str_replace "." "-" (str_replace ":" "-" ts)).
    split_and!; [done| | |].
    + by rewrite !str_replace_char_length.
    + rewrite !str_replace_char_contains by done. done.
    + rewrite str_replace_char_contains by done. done.
Qed.

(** X8.  When [write_status_file] returns a path for a record, the name of
    the record is non-empty, the path is the output directory joined with
    the file name derived from the name and timestamp of the record, the
    directory was made before the file was opened, and the text written to
    that path is the JSON text of the four fields of the record. *)
Theorem write_status_file_returns (st : ServiceStatus) (output_dir : string)
    (w w' : W) (path : string) :
  write_status_file (PyServiceStatus st) output_dir w = (Ok path, w') →
  service_name st ≠ ""
  ∧ path = path_join output_dir
             (service_name st +:+ "-status-"
              +:+ str_replace "." "-" (str_replace ":" "-" (timestamp st))
              +:+ ".json")
  ∧ ∃ w1, path_mkdir output_dir w = (Ok tt, w1)
          ∧ write_text path (json_dumps (to_dict st)) w1 = (Ok tt, w').
Proof. apply write_status_file_ok. Qed.

(** X9.  When [write_status_file] raises for a record, the exception is never
    a [PermissionError] or [FileNotFoundError]: every [OSError] of making the
    directory or writing the file, subclasses included, leaves as a plain
    [OSError] whose message is "Cannot write status file: " followed by the
    original message; other exceptions leave unchanged.  A record with an
    empty name raises [ValueError] only after the directory has been made,
    and nothing is written. *)
Theorem write_status_file_raises (st : ServiceStatus) (output_dir : string)
    (w w' : W) (e : exn) :
  write_status_file (PyServiceStatus st) output_dir w = (Raise e, w') →
  exn_cls e ≠ PermissionError ∧ exn_cls e ≠ FileNotFoundError
  ∧ ((∃ e0, is_OSError e0 = true
            ∧ e = Exn OSError ("Cannot write status file: " +:+ exn_str e0)
            ∧ (path_mkdir output_dir w = (Raise e0, w')
               ∨ ∃ w1 path, path_mkdir output_dir w = (Ok tt, w1)
                   ∧ write_text path (json_dumps (to_dict st)) w1
                     = (Raise e0, w')))
     ∨ (is_OSError e = false
        ∧ (path_mkdir output_dir w = (Raise e, w')
           ∨ (∃ w1 path, path_mkdir output_dir w = (Ok tt, w1)
                ∧ write_text path (json_dumps (to_dict st)) w1 = (Raise e, w'))
           ∨ (service_name st = ""
              ∧ path_mkdir output_dir w = (Ok tt, w')
              ∧ e = Exn ValueError "service_name must be a non-empty string")))).
Proof.
  intros Hrun.
  assert (Hcases :
    (∃ e0, is_OSError e0 = true
            ∧ e = Exn OSError ("Cannot write status file: " +:+ exn_str e0)
            ∧ (path_mkdir output_dir w = (Raise e0, w')
               ∨ ∃ w1 path, path_mkdir output_dir w = (Ok tt, w1)
                   ∧ write_text path (json_dumps (to_dict st)) w1
                     = (Raise e0, w')))
     ∨ (is_OSError e = false
        ∧ (path_mkdir output_dir w = (Raise e, w')
           ∨ (∃ w1 path, path_mkdir output_dir w = (Ok tt, w1)
                ∧ write_text path (json_dumps (to_dict st)) w1 = (Raise e, w'))
           ∨ (service_name st = ""
              ∧ path_mkdir output_dir w = (Ok tt, w')
              ∧ e = Exn ValueError "service_name must be a non-empty string")))).
  { revert Hrun.
    unfold write_status_file, try_except, bind, generate_json_filename, raise, ret.
    destruct (path_mkdir output_dir w) as [[[]|e0] w1] eqn:Hmk.
    - case_bool_decide as Hname.
      + simpl. intros [= <- <-]. right. split; [done|]. right. right. done.
      + unfold bind. simpl.
        destruct (write_text _ _ w1) as [[[]|e0] w2] eqn:Hwr; [done|].
        destruct (is_OSError e0) eqn:He0; intros [= <- <-].
        * left. exists e0. split_and!; [done|done|]. right. eauto.
        * right. split; [done|]. right. left. eauto.
    - destruct (is_OSError e0) eqn:He0; intros [= <- <-].
      + left. exists e0. split_and!; [done|done|]. by left.
      + right. split; [done|]. by left. }
  split_and!; [| |done].
  - destruct Hcases as [(e0 & _ & -> & _)|[He _]]; [done|].
    intros Hcls. unfold is_OSError in He. by rewrite Hcls in He.
  - destruct Hcases as [(e0 & _ & -> & _)|[He _]]; [done|].
    intros Hcls. unfold is_OSError in He. by rewrite Hcls in He.
Qed.

Lemma batch_run_sublist dir records (w w' : W) paths :
  batch_run dir records w paths w' →
  paths `sublist_of`
    ((λ st, path_join dir (json_filename (service_name st) (timestamp st)))
       <$> records).
Proof.
  induction 1 as [w|st records w path w1 paths w2 Hw _ IH
                  |st records w e w1 paths w2 Hw _ IH]; csimpl.
  - constructor.
  - apply write_status_file_ok in Hw as (_ & -> & _). by constructor.
  - by constructor.
Qed.

(** X10.  The paths [write_multiple_status_files] returns for a list of
    records form a subsequence of the paths the records map to (directory
    joined with the file name of the record), so there are at most as many
    paths as records and they come in the order of the records. *)
Theorem write_multiple_status_files_paths (records : list ServiceStatus)
    (output_dir : string) (w : W) :
  ∃ paths w',
    write_multiple_status_files (PyServiceStatus <$> records) output_dir w
    = (Ok paths, w')
    ∧ paths `sublist_of`
        ((λ st, path_join output_dir
                  (service_name st +:+ "-status-"
                   +:+ str_replace "." "-"
                         (str_replace ":" "-" (timestamp st))
                   +:+ ".json")) <$> records)
    ∧ length paths ≤ length records.
Proof.
  destruct (write_loop_records records output_dir [] w)
    as (paths & w' & Hrun & Hbatch).
  exists paths, w'. split; [done|].
  pose proof (batch_run_sublist _ _ _ _ _ Hbatch) as Hsub.
  split; [done|]. apply sublist_length in Hsub. by rewrite length_fmap in Hsub.
Qed.

End file_props.

Lemma generate_json_filename_spec_witness :
  let sc := service_checker (ServiceChecker.__init__ (Ok "host-1")) in
  "" = "" ∧ "httpd" ≠ ""
  ∧ generate_json_filename (checker := sc) "" None (example_os "")
    = (Raise (Exn ValueError "service_name must be a non-empty string"),
       example_os "")
  ∧ generate_json_filename (checker := sc) "httpd" None (example_os "")
    = (Ok "httpd-status-2024-01-15T10-30-00Z.json", os_step (example_os "")).
Proof.
  intros sc.
  destruct (generate_json_filename_spec (checker := sc) "" None (example_os ""))
    as (Hempty & _).
  destruct (generate_json_filename_spec (checker := sc) "httpd" None (example_os ""))
    as (_ & Hnone & _).
  split; [done|]. split; [done|]. split; [by apply Hempty|].
  rewrite Hnone by done. reflexivity.
Defined.

Lemma write_status_file_returns_witness :
  let sc := service_checker (ServiceChecker.__init__ (Ok "host-1")) in
  let st := example_record "httpd" "UP" in
  let run := write_status_file (checker := sc) (PyServiceStatus st) "data"
               (example_os "") in
  run = (Ok "data/httpd-status-2024-01-15T10-30-00Z.json", run.2)
  ∧ dict_keys (os_files run.2)
    = ["data/httpd-status-2024-01-15T10-30-00Z.json"].
Proof.
  intros sc st run.
  assert (Hrun : run = (Ok "data/httpd-status-2024-01-15T10-30-00Z.json", run.2))
    by reflexivity.
  split; [exact Hrun|].
  destruct (write_status_file_returns (checker := sc) st "data" (example_os "")
              run.2 _ Hrun) as (_ & _ & w1 & _ & Hwrite).
  reflexivity.
Defined.

Lemma write_status_file_raises_witness :
  let sc := service_checker (ServiceChecker.__init__ (Ok "host-1")) in
  let st := example_record "httpd" "UP" in
  let w := example_os "data" in
  write_status_file (checker := sc) (PyServiceStatus st) "data" w
  = (Raise (Exn OSError "Cannot write status file: [Errno 13] Permission denied"),
     os_step w)
  ∧ exn_cls (Exn OSError "Cannot write status file: [Errno 13] Permission denied")
    ≠ PermissionError.
Proof.
  intros sc st w.
  assert (Hrun : write_status_file (checker := sc) (PyServiceStatus st) "data" w
    = (Raise (Exn OSError "Cannot write status file: [Errno 13] Permission denied"),
       os_step w)) by reflexivity.
  split; [exact Hrun|].
  exact (proj1 (write_status_file_raises (checker := sc) _ _ _ _ _ Hrun)).
Defined.

(** ** Records to JSON and back *)

Lemma scanstring_escape_char_ascii c t :
  scanstring (escape_char_ascii c +:+ t)
  = '(s, r) ← scanstring t; Some (String c s, r).
Proof.
  unfold escape_char_ascii.
  destruct (N.ltb_spec 126 (N_of_ascii c)) as [Hc|Hc];
    [|apply scanstring_escape_char].
  pose proof (N_ascii_bounded c) as Hb.
  simpl. rewrite !hex_val_zero.
  rewrite !hex_val_char
    by first [apply N.mod_lt; lia | apply N.Div0.div_lt_upper_bound; lia].
  simpl.
  replace (((0 * 16 + 0) * 16 + N_of_ascii c / 16) * 16
           + N_of_ascii c mod 16)%N
    with (N_of_ascii c)
    by (rewrite (N.div_mod' (N_of_ascii c) 16) at 1; lia).
  rewrite (proj2 (N.ltb_lt _ _)) by lia.
  by rewrite ascii_N_embedding.
Qed.

Lemma scanstring_escape_ascii v rest :
  scanstring (escape_ascii v +:+ String dquote rest) = Some (v, rest).
Proof.
  induction v as [|c v IH]; [done|].
  simpl. rewrite str_app_assoc, scanstring_escape_char_ascii, IH. done.
Qed.

Section encoders.
Variable encoder : string → string.
Hypothesis encoder_scans : ∀ v rest,
  ∃ body, encoder v +:+ rest = String dquote body
          ∧ scanstring body = Some (v, rest).

Lemma parse_member_with k v rest :
  ∃ body, encoder k +:+ ": " +:+ encoder v +:+ rest = String dquote body
    ∧ String.length rest < String.length body
    ∧ ∃ body', scanstring body
               = Some (k, String ":" (String " " (String dquote body')))
        ∧ scanstring body' = Some (v, rest).
Proof.
  destruct (encoder_scans k (": " +:+ encoder v +:+ rest))
    as (body & Hbody & Hscan).
  destruct (encoder_scans v rest) as (body' & Hbody' & Hscan').
  exists body. split_and!; [done| |].
  - apply (f_equal String.length) in Hbody.
    rewrite !str_length_app in Hbody. simpl in Hbody. lia.
  - exists body'. split; [|done]. by rewrite Hscan, <-Hbody'.
Qed.

Lemma parse_members_items_with items :
  items ≠ [] →
  ∃ body, encode_items_with encoder items = String dquote body
    ∧ length items ≤ String.length body
    ∧ ∀ fuel pairs rest,
        length items ≤ fuel →
        parse_members fuel (body +:+ String newline (String "}" rest)) pairs
        = Some (pairs ++ items, rest).
Proof.
  induction items as [|[k v] items IH]; [done|]. intros _.
  destruct items as [|kv items].
  - destruct (parse_member_with k v "") as (body & Hbody & Hlen & _).
    exists body. split_and!.
    + simpl. by rewrite <-Hbody, !str_app_nil_r.
    + simpl in *. lia.
    + intros [|fuel] pairs rest Hfuel; [simpl in Hfuel; lia|].
      destruct (parse_member_with k v (String newline (String "}" rest)))
        as (body1 & Hbody1 & _ & body' & Hk & Hv).
      assert (body +:+ String newline (String "}" rest) = body1) as ->.
      { apply (str_cons_inj dquote). rewrite <-Hbody1.
        change (String dquote (body +:+ ?r)) with (String dquote body +:+ r).
        rewrite <-Hbody. by rewrite !str_app_assoc. }
      simpl. rewrite Hk. simpl. rewrite Hv. done.
  - destruct IH as (body2 & Hbody2 & Hlen2 & Hparse2); [done|].
    set (tail := String "," (String newline "  ")
                 +:+ encode_items_with encoder (kv :: items)).
    destruct (parse_member_with k v tail) as (body & Hbody & Hlen & _).
    exists body. split_and!.
    + by rewrite <-Hbody.
    + unfold tail in Hlen. rewrite str_length_app, Hbody2 in Hlen.
      simpl in *. lia.
    + intros [|fuel] pairs rest Hfuel; [simpl in Hfuel; lia|].
      destruct (parse_member_with k v (tail +:+ String newline (String "}" rest)))
        as (body1 & Hbody1 & _ & body' & Hk & Hv).
      assert (body +:+ String newline (String "}" rest) = body1) as ->.
      { apply (str_cons_inj dquote). rewrite <-Hbody1.
        change (String dquote (body +:+ ?r)) with (String dquote body +:+ r).
        rewrite <-Hbody. by rewrite !str_app_assoc. }
      cbn [parse_members]. rewrite Hk. simpl. rewrite Hv.
      unfold tail. rewrite Hbody2. simpl.
      rewrite Hparse2 by (simpl in *; lia).
      by rewrite <-app_assoc.
Qed.

Lemma json_roundtrip_with (d : pydict string) :
  NoDup (dict_keys d) → json_loads (json_dumps_with encoder d) = Some d.
Proof.
  intros Hnd. destruct d as [|kv d]; [done|].
  destruct (parse_members_items_with (kv :: d)) as (body & Hbody & Hlen & Hparse);
    [done|].
  unfold json_dumps_with. rewrite Hbody. unfold json_loads. simpl.
  rewrite (Hparse _ [] "") by (rewrite str_length_app; lia). simpl.
  f_equal. by apply (dict_of_pairs_NoDup []).
Qed.

End encoders.

Lemma to_dict_NoDup st : NoDup (dict_keys (to_dict st)).
Proof. apply (bool_decide_unpack _). by vm_compute. Qed.

Lemma json_loads_to_json st : json_loads (to_json st) = Some (to_dict st).
Proof.
  apply json_roundtrip_with; [|apply to_dict_NoDup].
  intros v rest. exists (escape_ascii v +:+ String dquote rest). split.
  - unfold py_encode_basestring_ascii. simpl. by rewrite str_app_assoc.
  - apply scanstring_escape_ascii.
Qed.

Lemma init_fields {parser : IsoParser} n s h t st :
  ServiceStatus_init n s h t = Ok st →
  ServiceStatus_init (PyStr (service_name st)) (PyStr (service_status st))
    (PyStr (host_name st)) (PyStr (timestamp st)) = Ok st.
Proof.
  unfold ServiceStatus_init at 1.
  destruct (_validate n s h t) as [[]|e] eqn:Hv; [|done].
  apply validate_ok_inv in Hv
    as (n' & s' & h' & t' & -> & -> & -> & -> & ? & ? & ? & ? & ?).
  intros [= <-]. simpl. unfold ServiceStatus_init. by rewrite validate_ok.
Qed.

Lemma from_dict_to_dict {parser : IsoParser} st :
  from_dict (prod_map id PyStr <$> to_dict st)
  = Called (ServiceStatus_init (PyStr (service_name st))
              (PyStr (service_status st)) (PyStr (host_name st))
              (PyStr (timestamp st))).
Proof.
  unfold from_dict, to_dict. by csimpl.
Qed.

Lemma from_json_loads {parser : IsoParser} text d :
  json_loads text = Some d →
  from_json text = Some (from_dict (prod_map id PyStr <$> d)).
Proof. unfold from_json. by intros ->. Qed.

(** X11.  A record that the constructor accepted survives both
    serialisations: [from_dict(to_dict())] and [from_json(to_json())] return
    a record equal to it, whatever characters its name and host contain
    ([to_json] escapes quotes, backslashes and everything outside printable
    ASCII, and [json.loads] undoes it). *)
Theorem from_json_to_json {parser : IsoParser} (n s h t : pyval)
    (st : ServiceStatus) :
  ServiceStatus_init n s h t = Ok st →
  from_dict (prod_map id PyStr <$> to_dict st) = Called (Ok st)
  ∧ from_json (to_json st) = Some (Called (Ok st)).
Proof.
  intros Hinit%init_fields. split.
  - by rewrite from_dict_to_dict, Hinit.
  - rewrite (from_json_loads _ _ (json_loads_to_json st)).
    by rewrite from_dict_to_dict, Hinit.
Qed.

Lemma from_json_to_json_witness :
  let quoted := String dquote ("web" +:+ String backslash (String "233" "")) in
  ∃ st,
    ServiceStatus_init (PyStr quoted) (PyStr "UP") (PyStr "host-1")
      (PyStr "2024-01-15T10:30:00Z") = Ok st
    ∧ from_json (to_json st) = Some (Called (Ok st)).
Proof.
  intros quoted. eexists. split; [reflexivity|].
  exact (proj2 (from_json_to_json (PyStr quoted) (PyStr "UP") (PyStr "host-1")
                  (PyStr "2024-01-15T10:30:00Z") _ eq_refl)).
Defined.

(** X12.  [from_dict] calls the constructor with the entries of the
    dictionary as keyword arguments: a key that is not one of the four field
    names, or a missing field name, gives [TypeError] and no record; a
    record that is returned holds, for each field, the string the dictionary
    has under that name; and when the constructor rejects the values the
    exception is [ValueError]. *)
Theorem from_dict_spec {parser : IsoParser} (data : pydict pyval) :
  (∀ k, k ∈ dict_keys data → k ∉ FIELDS → ∃ msg, from_dict data = TypeError msg)
  ∧ (∀ f, f ∈ FIELDS → dict_get f data = None →
       ∃ msg, from_dict data = TypeError msg)
  ∧ (∀ st, from_dict data = Called (Ok st) →
       dict_get "service_name" data = Some (PyStr (service_name st))
       ∧ dict_get "service_status" data = Some (PyStr (service_status st))
       ∧ dict_get "host_name" data = Some (PyStr (host_name st))
       ∧ dict_get "timestamp" data = Some (PyStr (timestamp st))
       ∧ ∀ k, k ∈ dict_keys data → k ∈ FIELDS)
  ∧ (∀ e, from_dict data = Called (Raise e) → exn_cls e = ValueError).
Proof.
  unfold from_dict. split_and!.
  - intros k Hk Hnot. rewrite bool_decide_eq_false_2; [by eexists|].
    rewrite Forall_forall. intros Hall. by apply Hnot, Hall.
  - intros f Hf Hnone. case_bool_decide; [|by eexists].
    unfold FIELDS in Hf.
    repeat (apply elem_of_cons in Hf as [->|Hf]; [rewrite Hnone|]).
    + by eexists.
    + destruct (dict_get "service_name" data); by eexists.
    + destruct (dict_get "service_name" data), (dict_get "service_status" data);
        by eexists.
    + destruct (dict_get "service_name" data), (dict_get "service_status" data),
        (dict_get "host_name" data); by eexists.
    + by apply elem_of_nil in Hf.
  - intros st. case_bool_decide as Hkeys; [|done].
    destruct (dict_get "service_name" data) as [n|]; [|done].
    destruct (dict_get "service_status" data) as [s|]; [|done].
    destruct (dict_get "host_name" data) as [h|]; [|done].
    destruct (dict_get "timestamp" data) as [t|]; [|done].
    intros [= Hinit]. unfold ServiceStatus_init in Hinit.
    destruct (_validate n s h t) as [[]|e] eqn:Hv; [|done].
    apply validate_ok_inv in Hv
      as (n' & s' & h' & t' & -> & -> & -> & -> & _).
    injection Hinit as <-. simpl. split_and!; try done.
    by apply Forall_forall.
  - intros e. case_bool_decide as Hkeys; [|done].
    destruct (dict_get "service_name" data) as [n|]; [|done].
    destruct (dict_get "service_status" data) as [s|]; [|done].
    destruct (dict_get "host_name" data) as [h|]; [|done].
    destruct (dict_get "timestamp" data) as [t|]; [|done].
    intros [= Hinit]. unfold ServiceStatus_init in Hinit.
    destruct (_validate n s h t) as [[]|e'] eqn:Hv; [done|].
    injection Hinit as <-. by eapply validate_raises.
Qed.

Lemma from_dict_spec_witness :
  let data := [("service_name", PyStr "httpd"); ("service_status", PyStr "UP");
               ("host_name", PyStr "host-1")] in
  "timestamp" ∈ FIELDS ∧ dict_get "timestamp" data = None
  ∧ ∃ msg, from_dict data = TypeError msg.
Proof.
  intros data.
  assert (Hf : "timestamp" ∈ FIELDS) by (unfold FIELDS; set_solver).
  split; [exact Hf|]. split; [reflexivity|].
  exact (proj1 (proj2 (from_dict_spec data)) "timestamp" Hf eq_refl).
Defined.

(** X13.  A status file loads back into the record it was written from: when
    the constructor accepted the record and [write_status_file] returned a
    path, on a file system where a written file holds what was written,
    [from_json] of the text of that file is a record equal to the one
    written. *)
Theorem written_file_loads_back {parser : IsoParser} {W : Type}
    {checker : Checker W} {fs : FileSystem W} (n s h t : pyval)
    (st : ServiceStatus)
    (output_dir path : string) (w w' : W) :
  read_after_write W →
  ServiceStatus_init n s h t = Ok st →
  write_status_file (PyServiceStatus st) output_dir w = (Ok path, w') →
  ∃ text, read_text path w' = Some text
          ∧ from_json text = Some (Called (Ok st)).
Proof.
  intros Hfs Hinit%init_fields (_ & _ & w1 & _ & Hwrite)%write_status_file_ok.
  exists (json_dumps (to_dict st)). split; [by eapply Hfs|].
  rewrite (from_json_loads _ _ (json_roundtrip _ (to_dict_NoDup st))).
  by rewrite from_dict_to_dict, Hinit.
Qed.

Lemma written_file_loads_back_witness :
  let sc := service_checker (ServiceChecker.__init__ (Ok "host-1")) in
  let st := example_record "httpd" "UP" in
  let run := write_status_file (checker := sc) (PyServiceStatus st) "data"
               (example_os "") in
  read_after_write OS
  ∧ ServiceStatus_init (PyStr "httpd") (PyStr "UP") (PyStr "host-1")
      (PyStr "2024-01-15T10:30:00Z") = Ok st
  ∧ ∃ text,
      read_text "data/httpd-status-2024-01-15T10-30-00Z.json" run.2 = Some text
      ∧ from_json text = Some (Called (Ok st)).
Proof.
  intros sc st run. split; [exact os_read_after_write|].
  split; [reflexivity|].
  exact (written_file_loads_back (checker := sc) (PyStr "httpd") (PyStr "UP")
           (PyStr "host-1") (PyStr "2024-01-15T10:30:00Z") st "data"
           "data/httpd-status-2024-01-15T10-30-00Z.json" (example_os "") run.2
           os_read_after_write eq_refl eq_refl).
Defined.

(** ** main.py *)

Section main_props.
Context {parser : IsoParser} {fs : FileSystem OS}.

Lemma real_create_objects self m (w : OS) :
  create_service_status_objects (checker := service_checker self) m w
  = (Ok (status_objects_loop m (ServiceChecker.hostname self)
           (stamp w (os_tick w)) []), os_step w).
Proof. done. Qed.

Lemma status_objects_loop_bound items host ts :
  length (status_objects_loop items host ts []) ≤ length items
  ∧ Forall (λ st, host_name st = host) (status_objects_loop items host ts []).
Proof.
  rewrite status_objects_loop_filter. simpl. case_decide.
  - split.
    + rewrite length_fmap. apply length_filter.
    + by apply Forall_fmap, Forall_true.
  - split; [simpl; lia|constructor].
Qed.

(** X14.  [monitor_services] raises [ValueError] for an empty list of
    services, before anything is probed.  For a non-empty list it never
    raises, whatever [systemctl], the clock and the file system do: the
    report names the services given, its status map has exactly those
    names as keys, its records carry the host name of the report, which is
    the one [socket.gethostname()] gave or "unknown-host"; the files
    written are at most as many as the records, which are at most as many
    as the entries of the map; and with [write_files] false nothing is
    written. *)
Theorem monitor_services_spec (gethostname : result string)
    (services : list string) (output_dir : string) (write_files : bool)
    (w : OS) :
  (services = [] →
   Main.monitor_services gethostname services output_dir write_files w
   = (Raise (Exn ValueError "services list cannot be empty"), w))
  ∧ (services ≠ [] →
     ∃ report w',
       Main.monitor_services gethostname services output_dir write_files w
       = (Ok report, w')
       ∧ Main.services_monitored report = services
       ∧ (∀ k, k ∈ dict_keys (Main.service_statuses report) ↔ k ∈ services)
       ∧ Main.hostname report = ServiceChecker._get_hostname gethostname
       ∧ Forall (λ st, host_name st = Main.hostname report)
           (Main.status_objects report)
       ∧ length (Main.written_files report)
         ≤ length (Main.status_objects report)
       ∧ length (Main.status_objects report)
         ≤ length (Main.service_statuses report)
       ∧ (write_files = false → Main.written_files report = [])).
Proof.
  split.
  - intros ->. done.
  - intros Hne. unfold Main.monitor_services, try_except.
    set (self := ServiceChecker.__init__ gethostname).
    destruct (check_loop_spec (checker := service_checker self) services [] w)
      as (m & Hrun & _ & Hkeys & _).
    set (w0 := world_after (checker := service_checker self) services w) in *.
    assert (Hcheck : check_service_statuses (checker := service_checker self)
                       (Some services) w = (Ok m, w0)).
    { unfold check_service_statuses. simpl default. by destruct services. }
    rewrite (bind_ok _ _ _ _ _ Hcheck).
    rewrite (bind_ok _ _ _ _ _ (real_create_objects self m _)).
    set (w1 := os_step w0).
    set (objs := status_objects_loop m _ _ []).
    destruct (status_objects_loop_bound m (ServiceChecker.hostname self)
                (stamp w0 (os_tick w0))) as [Hlen Hhost].
    fold objs in Hlen, Hhost.
    destruct (write_loop_records (checker := service_checker self) objs
                output_dir [] w1) as (paths & w2 & Hwrite & Hbatch).
    assert (Hpaths : length paths ≤ length objs).
    { apply batch_run_sublist, sublist_length in Hbatch.
      by rewrite length_fmap in Hbatch. }
    assert (Hfiles : ∃ files w3,
      match write_files, objs with
      | true, _ :: _ =>
          write_multiple_status_files (checker := service_checker self)
            (PyServiceStatus <$> objs) output_dir
      | _, _ => ret []
      end w1 = (Ok files, w3)
      ∧ length files ≤ length objs
      ∧ (write_files = false → files = [])).
    { destruct write_files.
      - destruct objs as [|o objs'] eqn:Hobjs.
        + exists [], w1. split_and!; [done|simpl; lia|done].
        + exists paths, w2. split_and!; [exact Hwrite|done|done].
      - exists [], w1. split_and!; [done|simpl; lia|done]. }
    destruct Hfiles as (files & w3 & Hfiles & Hflen & Hnone).
    rewrite (bind_ok _ _ _ _ _ Hfiles).
    eexists _, _. split; [reflexivity|]. simpl.
    split_and!; try done.
    intros k. rewrite Hkeys. unfold dict_keys. simpl. rewrite elem_of_nil. tauto.
Qed.

(** X15.  [monitor_rbcapp1] passes on whatever [get_full_monitoring_report]
    raises.  With [write_files] false it returns the report and no files.
    With [write_files] true it first writes the dependency records, where a
    failed write is skipped, and then the application record, where a failed
    write is not: when that write raises, [monitor_rbcapp1] raises the same
    exception although dependency files have been written; otherwise the
    files are the dependency files followed by the application file. *)
Theorem monitor_rbcapp1_spec (gethostname : result string)
    (output_dir : string) (w : OS) :
  let sc := service_checker (ServiceChecker.__init__ gethostname) in
  let run := get_full_monitoring_report (checker := sc) w in
  (∀ e w1 write_files, run = (Raise e, w1) →
     Main.monitor_rbcapp1 gethostname output_dir write_files w = (Raise e, w1))
  ∧ (∀ report w1, run = (Ok report, w1) →
     Main.monitor_rbcapp1 gethostname output_dir false w
     = (Ok (report, []), w1)
     ∧ ∃ service_files w2,
         write_multiple_status_files (checker := sc)
           (PyServiceStatus <$> Report.service_objects report) output_dir w1
         = (Ok service_files, w2)
         ∧ Main.monitor_rbcapp1 gethostname output_dir true w
           = match write_status_file (checker := sc)
                     (PyServiceStatus (Report.app_object report))
                     output_dir w2 with
             | (Ok app_file, w3) =>
                 (Ok (report, service_files ++ [app_file]), w3)
             | (Raise e, w3) => (Raise e, w3)
             end).
Proof.
  intros sc run. unfold Main.monitor_rbcapp1, try_except. fold sc. fold run.
  split.
  - intros e w1 write_files Hrun. by rewrite (bind_raise _ _ _ _ _ Hrun).
  - intros report w1 Hrun. rewrite !(bind_ok _ _ _ _ _ Hrun). split; [done|].
    destruct (write_loop_records (checker := sc) (Report.service_objects report)
                output_dir [] w1) as (paths & w2 & Hwrite & _).
    exists paths, w2. split; [exact Hwrite|].
    assert (Hfiles :
      match Report.service_objects report with
      | _ :: _ =>
          write_multiple_status_files (checker := sc)
            (PyServiceStatus <$> Report.service_objects report) output_dir
      | [] => ret []
      end w1 = (Ok paths, w2)).
    { destruct (Report.service_objects report); [|exact Hwrite].
      by injection Hwrite as <- <-. }
    unfold bind at 1. unfold bind at 1. rewrite Hfiles.
    unfold bind, ret.
    by destruct (write_status_file _ _ w2) as [[app_file|e] w3].
Qed.

End main_props.

Lemma monitor_services_spec_witness :
  let w := example_os "data/rabbitmq-status-2024-01-15T10-30-00-000003Z.json" in
  ["httpd"; "rabbitmq"; "postgresql"] ≠ []
  ∧ ∃ report w',
      Main.monitor_services (Ok "host-1") ["httpd"; "rabbitmq"; "postgresql"]
        "data" true w = (Ok report, w')
      ∧ Main.written_files report
        = ["data/httpd-status-2024-01-15T10-30-00-000003Z.json";
           "data/postgresql-status-2024-01-15T10-30-00-000003Z.json"]
      ∧ length (Main.status_objects report) = 3.
Proof.
  intros w. split; [done|].
  destruct (proj2 (monitor_services_spec (Ok "host-1")
                     ["httpd"; "rabbitmq"; "postgresql"] "data" true w))
    as (report & w' & Hrun & _); [done|].
  exists report, w'. split; [exact Hrun|].
  assert (H := f_equal fst Hrun). vm_compute in H. injection H as <-.
  split; reflexivity.
Defined.

Lemma monitor_rbcapp1_spec_witness :
  let w := example_os "data/rbcapp1-status-2024-01-15T10-30-00-000004Z.json" in
  ∃ report w1,
    get_full_monitoring_report
      (checker := service_checker (ServiceChecker.__init__ (Ok "host-1"))) w
    = (Ok report, w1)
    ∧ (Main.monitor_rbcapp1 (Ok "host-1") "data" true w).1
      = Raise (Exn OSError
                 "Cannot write status file: [Errno 13] Permission denied")
    ∧ Main.monitor_rbcapp1 (Ok "host-1") "data" false w = (Ok (report, []), w1).
Proof.
  intros w.
  destruct (get_full_monitoring_report
      (checker := service_checker (ServiceChecker.__init__ (Ok "host-1"))) w)
    as [[report|e] w1] eqn:Hrun; [|by vm_compute in Hrun].
  exists report, w1. split; [done|]. split; [reflexivity|].
  exact (proj1 (proj2 (monitor_rbcapp1_spec (Ok "host-1") "data" w)
                  report w1 Hrun)).
Defined.
